(** * Note state synchronisation of the note-taking client

    Shallow embedding of the state handlers of [NoteApp]
    (src/components/note-app.tsx, the remote-backed component, and its
    purely in-memory sibling), followed by the properties of the note
    store: selection after delete, the selection invariant, ordering of
    the collection, and behaviour on adapter failure.

    The component keeps its state in React cells.  A handler is a closure
    created by one render: inside it [notes] and [selectedNoteId] denote
    the values of that render, whatever [setNotes] or [setSelectedNoteId]
    have been called with in the meantime.  The embedding keeps the two
    apart: [Render] is what a handler reads, [Store] is what it writes. *)

From stdpp Require Import base option list strings.

Local Open Scope string_scope.
Local Open Scope list_scope.

(** ** Data *)

(** [interface Note].  The in-memory sibling spells the last field
    [createdAt]; nothing else differs. *)
Record Note := mkNote {
  id : string;
  title : string;
  content : string;
  category : string;
  created_at : string
}.

(** The literal handed to [insert] by the remote-backed [handleNoteCreate]:
    it carries no [id] and no [created_at]. *)
Record NoteDraft := mkDraft {
  draft_title : string;
  draft_content : string;
  draft_category : string
}.

(** Values that can reach a [catch] clause: the error object of an adapter
    reply, or the [TypeError] JavaScript raises on a property read of
    [undefined]. *)
Inductive Exn :=
| StoreError (msg : string)
| TypeError.

(** The [{ data, error }] object an awaited adapter query resolves to. *)
Record Response (A : Type) := mkResponse {
  data : option A;
  error : option Exn
}.
Arguments mkResponse {A} _ _.
Arguments data {A} _.
Arguments error {A} _.

(** The four queries the component issues on [supabase.from('notes')]:
    [select('*').order('created_at', { ascending: false })],
    [insert([d]).select().single()], [update(n).eq('id', k)] and
    [delete().eq('id', k)].  An [Adapter] is the behaviour of the remote
    store at the moment of one call. *)
Record Adapter := mkAdapter {
  select_ordered : Response (list Note);
  insert_single : NoteDraft -> Response Note;
  update_eq : Note -> string -> Response unit;
  delete_eq : string -> Response unit
}.

(** What a handler closure reads. *)
Record Render := mkRender {
  notes : list Note;
  selectedNoteId : option string
}.

(** What the handlers write: the React cells and the console. *)
Record Store := mkStore {
  cell_notes : list Note;
  cell_selectedNoteId : option string;
  cell_loading : bool;
  console : list (string * Exn)
}.

Definition render (s : Store) : Render :=
  {| notes := cell_notes s; selectedNoteId := cell_selectedNoteId s |}.

(** [useState<Note[]>([])], [useState<string | null>(null)],
    [useState(true)]. *)
Definition initial : Store :=
  {| cell_notes := []; cell_selectedNoteId := None;
     cell_loading := true; console := [] |}.

(** ** Effects: state, exceptions, [try]/[catch]/[finally] *)

Inductive Outcome (A : Type) :=
| Normal (a : A) (s : Store)
| Thrown (e : Exn) (s : Store).
Arguments Normal {A} _ _.
Arguments Thrown {A} _ _.

Definition M (A : Type) : Type := Store -> Outcome A.

Definition ret {A} (a : A) : M A := fun s => Normal a s.

Definition bind {A B} (m : M A) (k : A -> M B) : M B :=
  fun s => match m s with
           | Normal a s' => k a s'
           | Thrown e s' => Thrown e s'
           end.

#[global] Instance M_ret : MRet M := @ret.
#[global] Instance M_bind : MBind M := fun A B k m => bind m k.

Definition throw {A} (e : Exn) : M A := fun s => Thrown e s.

Definition try_catch {A} (body : M A) (handler : Exn -> M A) : M A :=
  fun s => match body s with
           | Normal a s' => Normal a s'
           | Thrown e s' => handler e s'
           end.

Definition try_finally {A} (body : M A) (final : M unit) : M A :=
  fun s => match body s with
           | Normal a s' =>
               match final s' with
               | Normal _ s'' => Normal a s''
               | Thrown e s'' => Thrown e s''
               end
           | Thrown e s' =>
               match final s' with
               | Normal _ s'' => Thrown e s''
               | Thrown e' s'' => Thrown e' s''
               end
           end.

Definition store_of {A} (o : Outcome A) : Store :=
  match o with Normal _ s => s | Thrown _ s => s end.

Definition returns {A} (o : Outcome A) : bool :=
  match o with Normal _ _ => true | Thrown _ _ => false end.

Definition setNotes (l : list Note) : M unit :=
  fun s => Normal tt
    {| cell_notes := l; cell_selectedNoteId := cell_selectedNoteId s;
       cell_loading := cell_loading s; console := console s |}.

Definition setSelectedNoteId (v : option string) : M unit :=
  fun s => Normal tt
    {| cell_notes := cell_notes s; cell_selectedNoteId := v;
       cell_loading := cell_loading s; console := console s |}.

Definition setLoading (b : bool) : M unit :=
  fun s => Normal tt
    {| cell_notes := cell_notes s;
       cell_selectedNoteId := cell_selectedNoteId s;
       cell_loading := b; console := console s |}.

Definition console_error (label : string) (e : Exn) : M unit :=
  fun s => Normal tt
    {| cell_notes := cell_notes s;
       cell_selectedNoteId := cell_selectedNoteId s;
       cell_loading := cell_loading s;
       console := console s ++ [(label, e)] |}.

(** ** JavaScript fragments *)

(** Truthiness of a [string | null]: [null] and the empty string are
    falsy. *)
Definition truthy (v : option string) : bool :=
  match v with
  | Some s => negb (bool_decide (s = ""))
  | None => false
  end.

(** [if (error) throw error] *)
Definition throw_if (error : option Exn) : M unit :=
  match error with
  | Some e => throw e
  | None => ret tt
  end.

(** [l[0].id]: a [TypeError] when [l[0]] is [undefined]. *)
Definition first_id (l : list Note) : M string :=
  match l !! 0%nat with
  | Some n => ret (id n)
  | None => throw TypeError
  end.

(** [note.id === selectedNoteId] *)
Definition is_selected (sel : option string) (note : Note) : bool :=
  bool_decide (Some (id note) = sel).

(** [notes.find((note) => note.id === selectedNoteId) || null] *)
Definition selectedNote (r : Render) : option Note :=
  find (is_selected (selectedNoteId r)) (notes r).

(** ** Handlers of the remote-backed component *)

Module Remote.

Definition fetchNotes (r : Render) (supabase : Adapter) : M unit :=
  try_finally
    (try_catch
       (let resp := select_ordered supabase in
        throw_if (error resp) ;;
        match data resp with
        | Some data =>
            setNotes data ;;
            if bool_decide (0 < length data)%nat
               && negb (truthy (selectedNoteId r))
            then k ← first_id data; setSelectedNoteId (Some k)
            else ret tt
        | None => ret tt
        end)
       (fun error => console_error "Error fetching notes:" error))
    (setLoading false).

Definition handleNoteSelect (id' : string) : M unit :=
  setSelectedNoteId (Some id').

Definition newNote : NoteDraft :=
  {| draft_title := "New Note";
     draft_content := "";
     draft_category := "Uncategorized" |}.

Definition handleNoteCreate (r : Render) (supabase : Adapter) : M unit :=
  try_catch
    (let resp := insert_single supabase newNote in
     throw_if (error resp) ;;
     match data resp with
     | Some data =>
         setNotes (data :: notes r) ;;
         setSelectedNoteId (Some (id data))
     | None => ret tt
     end)
    (fun error => console_error "Error creating note:" error).

Definition handleNoteUpdate (r : Render) (supabase : Adapter)
    (updatedNote : Note) : M unit :=
  try_catch
    (let resp := update_eq supabase updatedNote (id updatedNote) in
     throw_if (error resp) ;;
     setNotes
       ((fun note =>
           if bool_decide (id note = id updatedNote) then updatedNote
           else note) <$> notes r))
    (fun error => console_error "Error updating note:" error).

Definition handleNoteDelete (r : Render) (supabase : Adapter)
    (id' : string) : M unit :=
  try_catch
    (let resp := delete_eq supabase id' in
     throw_if (error resp) ;;
     setNotes (filter (fun note => id note ≠ id') (notes r)) ;;
     if bool_decide (selectedNoteId r = Some id') then
       if bool_decide (0 < length (notes r))%nat
       then k ← first_id (notes r); setSelectedNoteId (Some k)
       else setSelectedNoteId None
     else ret tt)
    (fun error => console_error "Error deleting note:" error).

(** The intents of the presentation layer, each with the remote store as
    it answers that call. *)
Inductive Intent :=
| Load (supabase : Adapter)
| Select (id' : string)
| Create (supabase : Adapter)
| Update (updatedNote : Note) (supabase : Adapter)
| Delete (id' : string) (supabase : Adapter).

Definition dispatch (r : Render) (op : Intent) : M unit :=
  match op with
  | Load supabase => fetchNotes r supabase
  | Select id' => handleNoteSelect id'
  | Create supabase => handleNoteCreate r supabase
  | Update updatedNote supabase => handleNoteUpdate r supabase updatedNote
  | Delete id' supabase => handleNoteDelete r supabase id'
  end.

(** One intent, run to completion by the handler of the current render. *)
Definition step (s : Store) (op : Intent) : Outcome unit :=
  dispatch (render s) op s.

Definition after (s : Store) (op : Intent) : Store := store_of (step s op).

(** Intents issued one after the other, each from a fresh render.  An
    intent issued while another still awaits its adapter reply would read
    an older render; such interleavings are not part of [run]. *)
Definition run (ops : list Intent) (s : Store) : Store :=
  fold_left after ops s.

End Remote.

(** ** Handlers of the in-memory component *)

(** This component has the cells [notes] and [selectedNoteId] only; its
    handlers are synchronous, call no adapter and leave the other fields
    of [Store] alone. *)
Module Local.

Definition handleNoteSelect (id' : string) : M unit :=
  setSelectedNoteId (Some id').

(** [now_ms] is [Date.now().toString()], [now_iso] is
    [new Date().toISOString()]. *)
Definition handleNoteCreate (r : Render) (now_ms now_iso : string) : M unit :=
  let newNote :=
    {| id := now_ms;
       title := "New Note";
       content := "";
       category := "Uncategorized";
       created_at := now_iso |} in
  setNotes (newNote :: notes r) ;;
  setSelectedNoteId (Some (id newNote)).

Definition handleNoteUpdate (r : Render) (updatedNote : Note) : M unit :=
  setNotes
    ((fun note =>
        if bool_decide (id note = id updatedNote) then updatedNote
        else note) <$> notes r).

Definition handleNoteDelete (r : Render) (id' : string) : M unit :=
  setNotes (filter (fun note => id note ≠ id') (notes r)) ;;
  if bool_decide (selectedNoteId r = Some id') then
    if bool_decide (0 < length (notes r))%nat
    then k ← first_id (notes r); setSelectedNoteId (Some k)
    else setSelectedNoteId None
  else ret tt.

End Local.

(** The ids of a collection, in order. *)
Definition ids (l : list Note) : list string := id <$> l.

(** The selection names a note of the collection, or nothing. *)
Definition selection_valid (s : Store) : Prop :=
  match cell_selectedNoteId s with
  | None => True
  | Some k => k ∈ ids (cell_notes s)
  end.

(** [notes.map((note) => note.id === u.id ? u : note)] *)
Definition replace_by_id (u : Note) (l : list Note) : list Note :=
  (fun note => if bool_decide (id note = id u) then u else note) <$> l.

(** [notes.filter((note) => note.id !== k)] *)
Definition remove_id (k : string) (l : list Note) : list Note :=
  filter (fun note => id note ≠ k) l.

Ltac handler :=
  unfold Remote.after, Remote.step, Remote.dispatch, render,
    Remote.fetchNotes, Remote.handleNoteSelect, Remote.handleNoteCreate,
    Remote.handleNoteUpdate, Remote.handleNoteDelete,
    Local.handleNoteSelect, Local.handleNoteCreate, Local.handleNoteUpdate,
    Local.handleNoteDelete,
    try_finally, try_catch, mbind, M_bind, bind, mret, M_ret, ret;
  cbn [notes selectedNoteId].

(** ** Vocabulary of the properties *)

Module Spec.
Import Remote.

(** The error field of the reply to the query an intent issues; [select]
    issues none. *)
Definition adapter_error (op : Intent) : option Exn :=
  match op with
  | Load supabase => error (select_ordered supabase)
  | Select _ => None
  | Create supabase => error (insert_single supabase newNote)
  | Update updatedNote supabase =>
      error (update_eq supabase updatedNote (id updatedNote))
  | Delete id' supabase => error (delete_eq supabase id')
  end.

(** The first argument each handler gives to [console.error]. *)
Definition label_of (op : Intent) : string :=
  match op with
  | Load _ => "Error fetching notes:"
  | Select _ => ""
  | Create _ => "Error creating note:"
  | Update _ _ => "Error updating note:"
  | Delete _ _ => "Error deleting note:"
  end.

(** The row a confirmed insert hands back. *)
Definition created (op : Intent) : option Note :=
  match op with
  | Create supabase =>
      match error (insert_single supabase newNote) with
      | None => data (insert_single supabase newNote)
      | Some _ => None
      end
  | _ => None
  end.

(** A create, update or delete whose adapter call succeeds. *)
Definition succeeded (op : Intent) : bool :=
  match op with
  | Create _ => bool_decide (is_Some (created op))
  | Update _ _ | Delete _ _ => bool_decide (adapter_error op = None)
  | Load _ | Select _ => false
  end.

(** The rows created along a sequence of intents, newest first. *)
Definition creation_log (ops : list Intent) : list Note :=
  reverse (omap created ops).

(** A confirmed update, or a confirmed delete of a note other than [k]. *)
Definition edits_around (k : string) (op : Intent) : bool :=
  match op with
  | Update _ _ => succeeded op
  | Delete id' _ => succeeded op && bool_decide (id' ≠ k)
  | _ => false
  end.

(** The adapter contract for insert: the stored row carries the fields of
    the draft, the server adds [id] and [created_at]. *)
Definition echoes (d : NoteDraft) (row : Note) : Prop :=
  title row = draft_title d /\
  content row = draft_content d /\
  category row = draft_category d.

(** Every intent but three: a select of an id that is not listed, a
    confirmed delete of the selected note while it is the first of the
    list, and a successful load whose rows do not hold the selected id.
    So: a select of a listed note, any create or update, a delete that is
    rejected, or removes a note other than the selected one, or removes
    the selected note from below the head of the list, and a load that
    fails, brings no data, meets no selection, or brings the selected
    note among its rows. *)
Definition admitted (s : Store) (op : Intent) : bool :=
  match op with
  | Select id' => bool_decide (id' ∈ ids (cell_notes s))
  | Create _ | Update _ _ => true
  | Delete id' _ =>
      bool_decide (cell_selectedNoteId s ≠ Some id')
      || bool_decide (is_Some (adapter_error op))
      || bool_decide (id <$> head (cell_notes s) ≠ Some id')
  | Load supabase =>
      match adapter_error op, data (select_ordered supabase),
            cell_selectedNoteId s with
      | None, Some rows, Some k => bool_decide (k ∈ ids rows)
      | _, _, _ => true
      end
  end.

Fixpoint admitted_run (s : Store) (ops : list Intent) : bool :=
  match ops with
  | [] => true
  | op :: ops => admitted s op && admitted_run (after s op) ops
  end.

End Spec.

(** ** Sample data *)

Module Sample.

Definition N1 : Note :=
  {| id := "n1"; title := "New Note"; content := "";
     category := "Uncategorized"; created_at := "2024-05-01T10:00:00Z" |}.

Definition N2 : Note :=
  {| id := "n2"; title := "New Note"; content := "";
     category := "Uncategorized"; created_at := "2024-05-01T10:05:00Z" |}.

Definition N1_edited : Note :=
  {| id := "n1"; title := "Groceries"; content := "milk";
     category := "Personal"; created_at := "2024-05-01T10:00:00Z" |}.

(** A remote store that lists [rows], answers an insert with [row] and
    confirms updates and deletes. *)
Definition serving (rows : list Note) (row : Note) : Adapter :=
  {| select_ordered := mkResponse (Some rows) None;
     insert_single := fun _ => mkResponse (Some row) None;
     update_eq := fun _ _ => mkResponse None None;
     delete_eq := fun _ => mkResponse None None |}.

(** A remote store that rejects every query. *)
Definition rejecting (e : Exn) : Adapter :=
  {| select_ordered := mkResponse None (Some e);
     insert_single := fun _ => mkResponse None (Some e);
     update_eq := fun _ _ => mkResponse None (Some e);
     delete_eq := fun _ => mkResponse None (Some e) |}.

Definition offline : Exn := StoreError "network".

Definition two_notes : Store :=
  {| cell_notes := [N2; N1]; cell_selectedNoteId := Some "n2";
     cell_loading := false; console := [] |}.

End Sample.

(** ** The note list, the editor and the connection banner *)

(** What the component draws from its render, as far as it depends on the
    state. *)
Module View.

(** A UTF-16 code unit, 0 to 65535.  [.length] and [.substring] of a
    JavaScript string count code units, so the excerpt is taken on the
    content as the list of its code units. *)
Definition code_unit : Type := N.

(** ["..."] *)
Definition dots : list code_unit := [46%N; 46%N; 46%N].

(** The line under the title of a list entry, [content] being the code
    units of [note.content]: [note.content.substring(0, 50)] followed by
    [note.content.length > 50 ? "..." : ""]. *)
Definition excerpt (content : list code_unit) : list code_unit :=
  take 50 content
  ++ (if bool_decide (50 < length content)%nat then dots else []).

(** [selectedNoteId === note.id], the test that picks the highlighted
    style of a list entry. *)
Definition highlighted (r : Render) (note : Note) : bool :=
  bool_decide (selectedNoteId r = Some (id note)).

(** [selectedNote ? <NoteEditor note={selectedNote} .../> : ...] *)
Inductive Pane :=
| EditorFor (note : Note)
| NoNoteSelected.

Definition pane (r : Render) : Pane :=
  match selectedNote r with
  | Some note => EditorFor note
  | None => NoNoteSelected
  end.

End View.

(** [NoteEditor]: the cell [editedNote] and the change handler of its
    three inputs. *)
Module Editor.

(** [keyof Note] *)
Inductive Field :=
| f_id
| f_title
| f_content
| f_category
| f_created_at.

(** [{ ...editedNote, [field]: value }] *)
Definition assign (editedNote : Note) (field : Field) (value : string)
    : Note :=
  match field with
  | f_id =>
      mkNote value (title editedNote) (content editedNote)
        (category editedNote) (created_at editedNote)
  | f_title =>
      mkNote (id editedNote) value (content editedNote)
        (category editedNote) (created_at editedNote)
  | f_content =>
      mkNote (id editedNote) (title editedNote) value
        (category editedNote) (created_at editedNote)
  | f_category =>
      mkNote (id editedNote) (title editedNote) (content editedNote)
        value (created_at editedNote)
  | f_created_at =>
      mkNote (id editedNote) (title editedNote) (content editedNote)
        (category editedNote) value
  end.

(** The fields the inputs of the editor are wired to:
    [handleChange("title", ...)], [handleChange("category", ...)] and
    [handleChange("content", ...)]. *)
Definition wired (field : Field) : bool :=
  match field with
  | f_title | f_content | f_category => true
  | f_id | f_created_at => false
  end.

(** [handleChange]: the first component is what [setEditedNote] receives,
    the second is the call [onUpdateNote(updatedNote)]. *)
Definition handleChange (editedNote : Note) (onUpdateNote : Note -> M unit)
    (field : Field) (value : string) : Note * M unit :=
  let updatedNote := assign editedNote field value in
  (updatedNote, onUpdateNote updatedNote).

End Editor.

(** The connection test the remote-backed component runs when it mounts,
    and the banner it feeds. *)
Module Connection.

(** ['testing' | 'success' | 'error'] *)
Inductive Status :=
| testing
| success
| error.

Inductive Line :=
| logged (label : string) (payload : option (list nat))
| errored (label : string) (e : Exn).

(** The cell [connectionStatus] and what the test writes to the console. *)
Record Cell := mkCell {
  connectionStatus : Status;
  lines : list Line
}.

(** [useState<...>('testing')] *)
Definition initial : Cell :=
  {| connectionStatus := testing; lines := [] |}.

Definition setConnectionStatus (v : Status) (c : Cell) : Cell :=
  {| connectionStatus := v; lines := lines c |}.

Definition console_line (l : Line) (c : Cell) : Cell :=
  {| connectionStatus := connectionStatus c; lines := lines c ++ [l] |}.

(** [testConnection]; [resp] is what
    [supabase.from('notes').select('count').limit(1)] resolves to.  The
    only [throw] of the [try] block is [if (error) throw error]. *)
Definition testConnection (resp : Response (list nat)) (c : Cell) : Cell :=
  let c := setConnectionStatus testing c in
  match resp with
  | mkResponse _ (Some e) =>
      let c := console_line (errored "Supabase connection error:" e) c in
      setConnectionStatus error c
  | mkResponse payload None =>
      let c :=
        console_line (logged "Supabase connection successful!" payload) c in
      setConnectionStatus success c
  end.

(** [connectionStatusDisplay]: the class and the text of the [span]. *)
Definition connectionStatusDisplay (c : Cell) : string * string :=
  match connectionStatus c with
  | testing => ("text-yellow-500", "Testing connection...")
  | success => ("text-green-500", "Connected to database")
  | error => ("text-red-500", "Database connection error")
  end.

End Connection.

(** ** Vocabulary of runs *)

Module Trace.
Import Remote.

Definition is_load (op : Intent) : bool :=
  match op with
  | Load _ => true
  | _ => false
  end.

(** The console entry a rejected intent leaves. *)
Definition failure_entry (op : Intent) : option (string * Exn) :=
  (fun e => (Spec.label_of op, e)) <$> Spec.adapter_error op.

(** Intents that cannot bring a second note of an id already listed: a
    create whose row has an unlisted id, a load whose rows have distinct
    ids, and every select, update and delete. *)
Definition keeps_unique (s : Store) (op : Intent) : bool :=
  match op with
  | Create _ =>
      match Spec.created op with
      | Some row => bool_decide (id row ∉ ids (cell_notes s))
      | None => true
      end
  | Load supabase =>
      match Spec.adapter_error op, data (select_ordered supabase) with
      | None, Some rows => bool_decide (NoDup (ids rows))
      | _, _ => true
      end
  | Select _ | Update _ _ | Delete _ _ => true
  end.

Fixpoint unique_run (s : Store) (ops : list Intent) : bool :=
  match ops with
  | [] => true
  | op :: ops => keeps_unique s op && unique_run (after s op) ops
  end.

End Trace.

(** ** Runs of the in-memory component *)

Module LocalRun.

(** The intents of the in-memory component; a create carries the two
    readings of the clock it makes. *)
Inductive Intent :=
| Select (id' : string)
| Create (now_ms now_iso : string)
| Update (updatedNote : Note)
| Delete (id' : string).

Definition dispatch (r : Render) (op : Intent) : M unit :=
  match op with
  | Select id' => Local.handleNoteSelect id'
  | Create now_ms now_iso => Local.handleNoteCreate r now_ms now_iso
  | Update updatedNote => Local.handleNoteUpdate r updatedNote
  | Delete id' => Local.handleNoteDelete r id'
  end.

Definition after (s : Store) (op : Intent) : Store :=
  store_of (dispatch (render s) op s).

Definition run (ops : list Intent) (s : Store) : Store :=
  fold_left after ops s.

(** The arguments of the two [useState] calls; the three timestamps are
    [new Date().toISOString()], and the same for a day and two days
    earlier.  The component has no loading flag and writes nothing to the
    console. *)
Definition initial (today yesterday two_days_ago : string) : Store :=
  {| cell_notes :=
       [ mkNote "1" "Cosmic Thoughts"
           "The universe is vast and full of wonders waiting to be discovered."
           "Inspiration" today;
         mkNote "2" "Project Nebula"
           "Ideas for the new space visualization project."
           "Work" yesterday;
         mkNote "3" "Stargazing Locations"
           "Best spots for viewing the night sky:
- Mountain viewpoint
- Desert observatory
- Lakeside clearing"
           "Personal" two_days_ago ];
     cell_selectedNoteId := Some "1";
     cell_loading := false;
     console := [] |}.

(** Intents of ordinary use: a select of a listed note, a create at a
    clock reading no listed note has as its id, any update, and a delete
    of a note other than the selected one. *)
Definition ordinary (s : Store) (op : Intent) : bool :=
  match op with
  | Select id' => bool_decide (id' ∈ ids (cell_notes s))
  | Create now_ms _ => bool_decide (now_ms ∉ ids (cell_notes s))
  | Update _ => true
  | Delete id' => bool_decide (cell_selectedNoteId s ≠ Some id')
  end.

Fixpoint ordinary_run (s : Store) (ops : list Intent) : bool :=
  match ops with
  | [] => true
  | op :: ops => ordinary s op && ordinary_run (after s op) ops
  end.

(** Ids pairwise distinct and a listed note selected. *)
Definition settled (s : Store) : Prop :=
  NoDup (ids (cell_notes s)) /\
  exists k, cell_selectedNoteId s = Some k /\ k ∈ ids (cell_notes s).

End LocalRun.

(** * Properties *)

(** [l[0].id] does not raise when [l.length > 0]. *)
Lemma first_id_cons (n : Note) (l : list Note) s :
  first_id (n :: l) s = Normal (id n) s.
Proof. reflexivity. Qed.

(** ** The closed form of each handler *)

Section RemoteSteps.
Import Remote.
Variable s : Store.

Lemma step_select id' :
  step s (Select id') =
  Normal tt {| cell_notes := cell_notes s;
               cell_selectedNoteId := Some id';
               cell_loading := cell_loading s;
               console := console s |}.
Proof. reflexivity. Qed.

Lemma step_load_ok supabase rows :
  error (select_ordered supabase) = None ->
  data (select_ordered supabase) = Some rows ->
  step s (Load supabase) =
  Normal tt {| cell_notes := rows;
               cell_selectedNoteId :=
                 match rows with
                 | first :: _ =>
                     if truthy (cell_selectedNoteId s)
                     then cell_selectedNoteId s else Some (id first)
                 | [] => cell_selectedNoteId s
                 end;
               cell_loading := false;
               console := console s |}.
Proof.
  intros He Hd. handler. rewrite He, Hd. cbn.
  destruct rows as [|first rows]; cbn; [reflexivity|].
  destruct (truthy (cell_selectedNoteId s)); reflexivity.
Qed.

Lemma step_load_null supabase :
  error (select_ordered supabase) = None ->
  data (select_ordered supabase) = None ->
  step s (Load supabase) =
  Normal tt {| cell_notes := cell_notes s;
               cell_selectedNoteId := cell_selectedNoteId s;
               cell_loading := false;
               console := console s |}.
Proof. intros He Hd. handler. rewrite He, Hd. reflexivity. Qed.

Lemma step_load_error supabase e :
  error (select_ordered supabase) = Some e ->
  step s (Load supabase) =
  Normal tt {| cell_notes := cell_notes s;
               cell_selectedNoteId := cell_selectedNoteId s;
               cell_loading := false;
               console := console s ++ [("Error fetching notes:", e)] |}.
Proof. intros He. handler. rewrite He. reflexivity. Qed.

Lemma step_create_ok supabase row :
  error (insert_single supabase newNote) = None ->
  data (insert_single supabase newNote) = Some row ->
  step s (Create supabase) =
  Normal tt {| cell_notes := row :: cell_notes s;
               cell_selectedNoteId := Some (id row);
               cell_loading := cell_loading s;
               console := console s |}.
Proof. intros He Hd. handler. rewrite He, Hd. reflexivity. Qed.

Lemma step_create_null supabase :
  error (insert_single supabase newNote) = None ->
  data (insert_single supabase newNote) = None ->
  step s (Create supabase) = Normal tt s.
Proof. intros He Hd. handler. rewrite He, Hd. reflexivity. Qed.

Lemma step_create_error supabase e :
  error (insert_single supabase newNote) = Some e ->
  step s (Create supabase) =
  Normal tt {| cell_notes := cell_notes s;
               cell_selectedNoteId := cell_selectedNoteId s;
               cell_loading := cell_loading s;
               console := console s ++ [("Error creating note:", e)] |}.
Proof. intros He. handler. rewrite He. reflexivity. Qed.

Lemma step_update_ok supabase updatedNote :
  error (update_eq supabase updatedNote (id updatedNote)) = None ->
  step s (Update updatedNote supabase) =
  Normal tt {| cell_notes := replace_by_id updatedNote (cell_notes s);
               cell_selectedNoteId := cell_selectedNoteId s;
               cell_loading := cell_loading s;
               console := console s |}.
Proof. intros He. handler. rewrite He. reflexivity. Qed.

Lemma step_update_error supabase updatedNote e :
  error (update_eq supabase updatedNote (id updatedNote)) = Some e ->
  step s (Update updatedNote supabase) =
  Normal tt {| cell_notes := cell_notes s;
               cell_selectedNoteId := cell_selectedNoteId s;
               cell_loading := cell_loading s;
               console := console s ++ [("Error updating note:", e)] |}.
Proof. intros He. handler. rewrite He. reflexivity. Qed.

(** After a confirmed delete of the selected note the new selection is
    read off [notes] as the handler's render saw it, that is, before the
    removal. *)
Lemma step_delete_ok supabase id' :
  error (delete_eq supabase id') = None ->
  step s (Delete id' supabase) =
  Normal tt {| cell_notes := remove_id id' (cell_notes s);
               cell_selectedNoteId :=
                 if bool_decide (cell_selectedNoteId s = Some id')
                 then id <$> head (cell_notes s)
                 else cell_selectedNoteId s;
               cell_loading := cell_loading s;
               console := console s |}.
Proof.
  intros He. handler. rewrite He. cbn.
  case_bool_decide; [|reflexivity].
  destruct (cell_notes s); reflexivity.
Qed.

Lemma step_delete_error supabase id' e :
  error (delete_eq supabase id') = Some e ->
  step s (Delete id' supabase) =
  Normal tt {| cell_notes := cell_notes s;
               cell_selectedNoteId := cell_selectedNoteId s;
               cell_loading := cell_loading s;
               console := console s ++ [("Error deleting note:", e)] |}.
Proof. intros He. handler. rewrite He. reflexivity. Qed.

(** No intent throws to its caller, whatever the adapter replies. *)
Lemma step_returns op : returns (Remote.step s op) = true.
Proof.
  destruct op as [sb|k|sb|u sb|k sb].
  - destruct (error (select_ordered sb)) as [e|] eqn:He.
    { now rewrite (step_load_error _ _ He). }
    destruct (data (select_ordered sb)) as [rows|] eqn:Hd.
    + now rewrite (step_load_ok _ _ He Hd).
    + now rewrite (step_load_null _ He Hd).
  - reflexivity.
  - destruct (error (insert_single sb newNote)) as [e|] eqn:He.
    { now rewrite (step_create_error _ _ He). }
    destruct (data (insert_single sb newNote)) as [row|] eqn:Hd.
    + now rewrite (step_create_ok _ _ He Hd).
    + now rewrite (step_create_null _ He Hd).
  - destruct (error (update_eq sb u (id u))) as [e|] eqn:He.
    + now rewrite (step_update_error _ _ _ He).
    + now rewrite (step_update_ok _ _ He).
  - destruct (error (delete_eq sb k)) as [e|] eqn:He.
    + now rewrite (step_delete_error _ _ _ He).
    + now rewrite (step_delete_ok _ _ He).
Qed.

End RemoteSteps.

(** ** Facts on [map] by id and [filter] by id *)

Section Collections.
Implicit Types (l : list Note) (k : string) (u : Note).

Lemma ids_replace_by_id u l : ids (replace_by_id u l) = ids l.
Proof.
  unfold ids, replace_by_id. induction l as [|n l IH]; [reflexivity|].
  cbn. rewrite IH. f_equal. case_bool_decide; congruence.
Qed.

Lemma replace_by_id_lookup u l (i : nat) :
  replace_by_id u l !! i =
  (fun note => if bool_decide (id note = id u) then u else note)
    <$> (l !! i).
Proof. unfold replace_by_id. apply list_lookup_fmap. Qed.

Lemma replace_by_id_absent u l :
  id u ∉ ids l -> replace_by_id u l = l.
Proof.
  unfold ids, replace_by_id. induction l as [|n l IH]; [reflexivity|].
  cbn. rewrite not_elem_of_cons. intros [Hn Hl].
  rewrite IH by exact Hl. case_bool_decide; congruence.
Qed.

Lemma replace_by_id_app u l1 l2 :
  replace_by_id u (l1 ++ l2) = replace_by_id u l1 ++ replace_by_id u l2.
Proof. unfold replace_by_id. apply fmap_app. Qed.

Lemma replace_by_id_unique u before old later :
  id old = id u ->
  NoDup (ids (before ++ old :: later)) ->
  replace_by_id u (before ++ old :: later) = before ++ u :: later.
Proof.
  intros Hid Hnd. unfold ids in Hnd.
  rewrite fmap_app, fmap_cons, Hid in Hnd.
  apply NoDup_app in Hnd as (_ & Hcross & Hnd).
  apply NoDup_cons in Hnd as [Hlater _].
  rewrite replace_by_id_app, replace_by_id_absent.
  - f_equal. change (replace_by_id u (old :: later))
      with ((if bool_decide (id old = id u) then u else old)
              :: replace_by_id u later).
    rewrite bool_decide_eq_true_2 by exact Hid.
    now rewrite replace_by_id_absent.
  - intros Hin. apply (Hcross _ Hin). left.
Qed.

Lemma remove_id_idem k l : remove_id k (remove_id k l) = remove_id k l.
Proof.
  unfold remove_id. induction l as [|n l IH]; [reflexivity|].
  rewrite filter_cons. case_decide as Hn; [|exact IH].
  rewrite filter_cons, decide_True by exact Hn. now rewrite IH.
Qed.

Lemma ids_remove_id_sublist k l : ids (remove_id k l) `sublist_of` ids l.
Proof. unfold ids, remove_id. apply fmap_sublist, sublist_filter. Qed.

Lemma elem_of_ids_remove_id k k' l :
  k' ∈ ids l -> k' ≠ k -> k' ∈ ids (remove_id k l).
Proof.
  unfold ids, remove_id. rewrite !list_elem_of_fmap.
  intros (n & -> & Hn) Hne. exists n. split; [reflexivity|].
  apply list_elem_of_filter. now split.
Qed.

(** Removing another id leaves the head in place. *)
Lemma head_remove_id_other k n l :
  id n ≠ k -> remove_id k (n :: l) = n :: remove_id k l.
Proof. intros Hn. unfold remove_id. now rewrite filter_cons, decide_True. Qed.

Lemma head_remove_id_same n l :
  remove_id (id n) (n :: l) = remove_id (id n) l.
Proof.
  unfold remove_id. rewrite filter_cons, decide_False; [reflexivity|].
  intros H. now apply H.
Qed.

End Collections.

(** ** The in-memory handlers in closed form *)

Section LocalSteps.
Variable s : Store.

Lemma local_delete id' :
  Local.handleNoteDelete (render s) id' s =
  Normal tt {| cell_notes := remove_id id' (cell_notes s);
               cell_selectedNoteId :=
                 if bool_decide (cell_selectedNoteId s = Some id')
                 then id <$> head (cell_notes s)
                 else cell_selectedNoteId s;
               cell_loading := cell_loading s;
               console := console s |}.
Proof.
  handler. cbn. case_bool_decide; [|reflexivity].
  destruct (cell_notes s); reflexivity.
Qed.

Lemma local_create now_ms now_iso :
  Local.handleNoteCreate (render s) now_ms now_iso s =
  Normal tt {| cell_notes :=
                 mkNote now_ms "New Note" "" "Uncategorized" now_iso
                   :: cell_notes s;
               cell_selectedNoteId := Some now_ms;
               cell_loading := cell_loading s;
               console := console s |}.
Proof. reflexivity. Qed.

Lemma local_update updatedNote :
  Local.handleNoteUpdate (render s) updatedNote s =
  Normal tt {| cell_notes := replace_by_id updatedNote (cell_notes s);
               cell_selectedNoteId := cell_selectedNoteId s;
               cell_loading := cell_loading s;
               console := console s |}.
Proof. reflexivity. Qed.

End LocalSteps.

(** ** Selection after a delete *)

Section DeleteSelection.
Import Remote.

Lemma find_removed k l :
  find (is_selected (Some k)) (remove_id k l) = None.
Proof.
  unfold remove_id. induction l as [|n l IH]; [reflexivity|].
  rewrite filter_cons. case_decide as Hn; [|exact IH].
  cbn. unfold is_selected at 1.
  rewrite bool_decide_eq_false_2 by congruence. exact IH.
Qed.

(** Deleting the selected note while it heads the list leaves its id
    in [selectedNoteId]: [notes[0]] is still the deleted note in the
    handler's closure.  No entry of the new collection has that id. *)
Lemma delete_selected_head s supabase n l :
  cell_notes s = n :: l ->
  cell_selectedNoteId s = Some (id n) ->
  error (delete_eq supabase (id n)) = None ->
  cell_notes (after s (Delete (id n) supabase)) = remove_id (id n) l /\
  cell_selectedNoteId (after s (Delete (id n) supabase)) = Some (id n) /\
  selectedNote (render (after s (Delete (id n) supabase))) = None.
Proof.
  intros Hl Hsel He. unfold after. rewrite step_delete_ok by exact He.
  cbn. rewrite Hl, Hsel, bool_decide_eq_true_2 by reflexivity.
  rewrite head_remove_id_same. repeat split.
  unfold selectedNote. cbn. apply find_removed.
Qed.

(** Deleting the selected note from further down the list selects the
    head, which is also the head of what remains. *)
Lemma delete_selected_below_head s supabase n l id' :
  cell_notes s = n :: l ->
  cell_selectedNoteId s = Some id' ->
  id n ≠ id' ->
  error (delete_eq supabase id') = None ->
  cell_selectedNoteId (after s (Delete id' supabase))
    = id <$> head (cell_notes (after s (Delete id' supabase))).
Proof.
  intros Hl Hsel Hn He. unfold after. rewrite step_delete_ok by exact He.
  cbn. rewrite Hl, Hsel, bool_decide_eq_true_2 by reflexivity.
  now rewrite head_remove_id_other.
Qed.

End DeleteSelection.

(** C1.  The claim: after a confirmed delete of the selected note,
    [selectedNote] is the first note of what remains, or absent when nothing
    remains.  The scenario of the specification, run on the handlers: load
    an empty store, create N1, create N2, delete N2.  The collection ends
    as [N1], but [selectedNoteId] still holds the id of N2 and
    [selectedNote] is absent instead of N1. *)
Theorem C1_delete_selected_first_note_scenario :
  cell_notes
    (Remote.run
       [Remote.Load (Sample.serving [] Sample.N1);
        Remote.Create (Sample.serving [] Sample.N1);
        Remote.Create (Sample.serving [Sample.N1] Sample.N2);
        Remote.Delete "n2" (Sample.serving [Sample.N1] Sample.N2)]
       initial) = [Sample.N1] /\
  cell_selectedNoteId
    (Remote.run
       [Remote.Load (Sample.serving [] Sample.N1);
        Remote.Create (Sample.serving [] Sample.N1);
        Remote.Create (Sample.serving [Sample.N1] Sample.N2);
        Remote.Delete "n2" (Sample.serving [Sample.N1] Sample.N2)]
       initial) = Some "n2" /\
  selectedNote
    (render
       (Remote.run
          [Remote.Load (Sample.serving [] Sample.N1);
           Remote.Create (Sample.serving [] Sample.N1);
           Remote.Create (Sample.serving [Sample.N1] Sample.N2);
           Remote.Delete "n2" (Sample.serving [Sample.N1] Sample.N2)]
          initial)) = None.
Proof. repeat split. Qed.

(** ** Select *)

(** C3, as the claim states it, fails: selecting an id that no note of the
    collection carries does change [selectedNoteId]. *)
Lemma C3_select_unlisted_id_changes_selection :
  ("ghost" ∉ ids (cell_notes Sample.two_notes)) /\
  cell_selectedNoteId (Remote.after Sample.two_notes (Remote.Select "ghost"))
    = Some "ghost" /\
  cell_selectedNoteId Sample.two_notes = Some "n2".
Proof.
  split; [|split; reflexivity].
  cbn. rewrite !not_elem_of_cons. repeat split; try discriminate.
  apply not_elem_of_nil.
Qed.

(** C3, amended: for every state and every id, listed or not, [select]
    returns normally, sets [selectedNoteId] to that id and leaves the
    collection, the loading flag and the console as they were. *)
Theorem C3_select_sets_selection (s : Store) (id' : string) :
  Remote.step s (Remote.Select id') =
    Normal tt {| cell_notes := cell_notes s;
                 cell_selectedNoteId := Some id';
                 cell_loading := cell_loading s;
                 console := console s |} /\
  Local.handleNoteSelect id' s = Remote.step s (Remote.Select id').
Proof. split; reflexivity. Qed.

(** ** Delete of a note that is not selected *)

(** C10.  When the id passed to delete is not the selected one, the
    selection is the same after the call, whether the adapter confirms or
    rejects it; the collection is the old one without the entries of that
    id when the adapter confirms, the old one when it rejects, so the notes
    of every other id are the same, in the same order.  The in-memory
    handler does the same without an adapter. *)
Theorem C10_delete_other_keeps_selection
    (s : Store) (supabase : Adapter) (id' : string) :
  cell_selectedNoteId s ≠ Some id' ->
  cell_selectedNoteId (Remote.after s (Remote.Delete id' supabase))
    = cell_selectedNoteId s /\
  cell_notes (Remote.after s (Remote.Delete id' supabase))
    = match error (delete_eq supabase id') with
      | Some _ => cell_notes s
      | None => remove_id id' (cell_notes s)
      end /\
  remove_id id' (cell_notes (Remote.after s (Remote.Delete id' supabase)))
    = remove_id id' (cell_notes s) /\
  cell_selectedNoteId (store_of (Local.handleNoteDelete (render s) id' s))
    = cell_selectedNoteId s /\
  cell_notes (store_of (Local.handleNoteDelete (render s) id' s))
    = remove_id id' (cell_notes s).
Proof.
  intros Hsel. unfold Remote.after. rewrite local_delete.
  destruct (error (delete_eq supabase id')) as [e|] eqn:He.
  - rewrite (step_delete_error s _ _ e He). cbn.
    rewrite bool_decide_eq_false_2 by exact Hsel. repeat split.
  - rewrite (step_delete_ok s _ _ He). cbn.
    rewrite bool_decide_eq_false_2 by exact Hsel.
    repeat split. apply remove_id_idem.
Qed.

Lemma C10_delete_other_keeps_selection_witness :
  cell_selectedNoteId
    (Remote.after Sample.two_notes
       (Remote.Delete "n1" (Sample.serving [] Sample.N1))) = Some "n2" /\
  cell_notes
    (Remote.after Sample.two_notes
       (Remote.Delete "n1" (Sample.serving [] Sample.N1))) = [Sample.N2].
Proof.
  destruct (C10_delete_other_keeps_selection Sample.two_notes
              (Sample.serving [] Sample.N1) "n1") as (Hsel & Hnotes & _).
  - discriminate.
  - split; [exact Hsel | exact Hnotes].
Defined.

(** ** Adapter failure *)

(** C5.  Whichever of load, create, update and delete is issued, from
    whichever state: when the reply of the adapter carries an error, the
    handler returns normally (nothing is thrown to its caller), the
    collection and the selection are what they were, and the error has
    been written once to the console under the label of the handler.  A
    failed load still takes the loading flag down. *)
Theorem C5_adapter_failure_keeps_state
    (s : Store) (op : Remote.Intent) (e : Exn) :
  Spec.adapter_error op = Some e ->
  Remote.step s op =
    Normal tt
      {| cell_notes := cell_notes s;
         cell_selectedNoteId := cell_selectedNoteId s;
         cell_loading :=
           match op with
           | Remote.Load _ => false
           | _ => cell_loading s
           end;
         console := console s ++ [(Spec.label_of op, e)] |}.
Proof.
  destruct op as [sb|k|sb|u sb|k sb]; cbn [Spec.adapter_error Spec.label_of];
    intros He.
  - now apply step_load_error.
  - discriminate.
  - now apply step_create_error.
  - now apply step_update_error.
  - now apply step_delete_error.
Qed.

Lemma C5_adapter_failure_keeps_state_witness :
  Remote.step Sample.two_notes
    (Remote.Update Sample.N1_edited (Sample.rejecting Sample.offline)) =
  Normal tt
    {| cell_notes := [Sample.N2; Sample.N1];
       cell_selectedNoteId := Some "n2";
       cell_loading := false;
       console := [("Error updating note:", StoreError "network")] |}.
Proof.
  apply (C5_adapter_failure_keeps_state Sample.two_notes
           (Remote.Update Sample.N1_edited (Sample.rejecting Sample.offline))
           Sample.offline).
  reflexivity.
Defined.

(** ** Load *)

(** C6.  A load whose reply carries the rows and no error makes the rows
    the collection; if nothing was selected, the selection becomes the id
    of the first row, and stays unset when there is no row.  A load whose
    reply carries an error leaves collection and selection as they were. *)
Theorem C6_load (s : Store) (supabase : Adapter) :
  (forall rows,
     error (select_ordered supabase) = None ->
     data (select_ordered supabase) = Some rows ->
     cell_notes (Remote.after s (Remote.Load supabase)) = rows /\
     (cell_selectedNoteId s = None ->
      cell_selectedNoteId (Remote.after s (Remote.Load supabase))
        = id <$> head rows)) /\
  (forall e,
     error (select_ordered supabase) = Some e ->
     cell_notes (Remote.after s (Remote.Load supabase)) = cell_notes s /\
     cell_selectedNoteId (Remote.after s (Remote.Load supabase))
       = cell_selectedNoteId s).
Proof.
  unfold Remote.after. split.
  - intros rows He Hd. rewrite (step_load_ok s _ _ He Hd). cbn.
    split; [reflexivity|]. intros ->. now destruct rows.
  - intros e He. rewrite (step_load_error s _ _ He). now split.
Qed.

Lemma C6_load_witness :
  cell_notes
    (Remote.after initial
       (Remote.Load (Sample.serving [Sample.N2; Sample.N1] Sample.N1)))
    = [Sample.N2; Sample.N1] /\
  cell_selectedNoteId
    (Remote.after initial
       (Remote.Load (Sample.serving [Sample.N2; Sample.N1] Sample.N1)))
    = Some "n2" /\
  cell_notes
    (Remote.after Sample.two_notes
       (Remote.Load (Sample.rejecting Sample.offline)))
    = [Sample.N2; Sample.N1].
Proof.
  destruct (C6_load initial (Sample.serving [Sample.N2; Sample.N1] Sample.N1))
    as [Hok _].
  destruct (Hok [Sample.N2; Sample.N1] eq_refl eq_refl) as [Hrows Hsel].
  destruct (C6_load Sample.two_notes (Sample.rejecting Sample.offline))
    as [_ Hfail].
  destruct (Hfail Sample.offline eq_refl) as [Hkept _].
  split; [exact Hrows|]. split; [exact (Hsel eq_refl) | exact Hkept].
Defined.

(** A selection that is a non-empty string survives any load. *)
Lemma load_keeps_truthy_selection (s : Store) (supabase : Adapter) :
  truthy (cell_selectedNoteId s) = true ->
  cell_selectedNoteId (Remote.after s (Remote.Load supabase))
    = cell_selectedNoteId s.
Proof.
  intros Ht. unfold Remote.after.
  destruct (error (select_ordered supabase)) as [e|] eqn:He.
  { now rewrite (step_load_error s _ _ He). }
  destruct (data (select_ordered supabase)) as [rows|] eqn:Hd.
  - rewrite (step_load_ok s _ _ He Hd). cbn. rewrite Ht. now destruct rows.
  - now rewrite (step_load_null s _ He Hd).
Qed.

(** Two loads in a row that get the same reply: the second one changes
    neither the collection nor the selection. *)
Lemma load_again (s : Store) (supabase : Adapter) :
  cell_notes (Remote.run [Remote.Load supabase; Remote.Load supabase] s)
    = cell_notes (Remote.run [Remote.Load supabase] s) /\
  cell_selectedNoteId
    (Remote.run [Remote.Load supabase; Remote.Load supabase] s)
    = cell_selectedNoteId (Remote.run [Remote.Load supabase] s).
Proof.
  cbn [Remote.run fold_left]. unfold Remote.after.
  destruct (error (select_ordered supabase)) as [e|] eqn:He.
  { rewrite (step_load_error s _ _ He). cbn [store_of].
    now rewrite (step_load_error _ _ _ He). }
  destruct (data (select_ordered supabase)) as [rows|] eqn:Hd.
  - rewrite (step_load_ok s _ _ He Hd). cbn [store_of].
    rewrite (step_load_ok _ _ _ He Hd). cbn.
    split; [reflexivity|]. destruct rows as [|first rows]; [reflexivity|].
    destruct (truthy (cell_selectedNoteId s)) eqn:Ht.
    + now rewrite Ht.
    + now destruct (truthy (Some (id first))).
  - rewrite (step_load_null s _ He Hd). cbn [store_of].
    now rewrite (step_load_null _ _ He Hd).
Qed.

(** C9.  Load run twice in a row against the same remote reply, from any
    state: the collection exposed after the second load is the one exposed
    after the first, and when the selection after the first load names a
    note of that collection the second load leaves it as it is. *)
Theorem C9_load_twice (s : Store) (supabase : Adapter) :
  cell_notes (Remote.run [Remote.Load supabase; Remote.Load supabase] s)
    = cell_notes (Remote.run [Remote.Load supabase] s) /\
  (forall k,
     cell_selectedNoteId (Remote.run [Remote.Load supabase] s) = Some k ->
     k ∈ ids (cell_notes (Remote.run [Remote.Load supabase] s)) ->
     cell_selectedNoteId
       (Remote.run [Remote.Load supabase; Remote.Load supabase] s)
     = cell_selectedNoteId (Remote.run [Remote.Load supabase] s)).
Proof.
  destruct (load_again s supabase) as [Hnotes Hsel].
  split; [exact Hnotes|]. intros k _ _. exact Hsel.
Qed.

Lemma C9_load_twice_witness :
  cell_notes
    (Remote.run
       [Remote.Load (Sample.serving [Sample.N2; Sample.N1] Sample.N1);
        Remote.Load (Sample.serving [Sample.N2; Sample.N1] Sample.N1)]
       initial) = [Sample.N2; Sample.N1] /\
  cell_selectedNoteId
    (Remote.run
       [Remote.Load (Sample.serving [Sample.N2; Sample.N1] Sample.N1);
        Remote.Load (Sample.serving [Sample.N2; Sample.N1] Sample.N1)]
       initial) = Some "n2" /\
  cell_notes
    (Remote.run
       [Remote.Load (Sample.serving [] Sample.N1);
        Remote.Load (Sample.serving [] Sample.N1)]
       initial) = [].
Proof.
  destruct (C9_load_twice initial
              (Sample.serving [Sample.N2; Sample.N1] Sample.N1))
    as [Hnotes Hsel].
  destruct (C9_load_twice initial (Sample.serving [] Sample.N1))
    as [Hempty _].
  split; [exact Hnotes|]. split; [|exact Hempty].
  apply (Hsel "n2"); [reflexivity|]. cbn. left.
Defined.

(** ** Create *)

(** C7.  A create whose insert is confirmed with a row puts that row in
    front of the collection and selects it; the draft the handler sends
    has title "New Note", empty content and category "Uncategorized", so
    a row that carries the fields of the draft has them too (its id and
    timestamp are the adapter's).  A create whose insert is rejected
    leaves collection and selection as they were: nothing of the draft
    stays behind. *)
Theorem C7_create (s : Store) (supabase : Adapter) :
  (forall row,
     error (insert_single supabase Remote.newNote) = None ->
     data (insert_single supabase Remote.newNote) = Some row ->
     Spec.echoes Remote.newNote row ->
     cell_notes (Remote.after s (Remote.Create supabase))
       = row :: cell_notes s /\
     cell_selectedNoteId (Remote.after s (Remote.Create supabase))
       = Some (id row) /\
     title row = "New Note" /\
     content row = "" /\
     category row = "Uncategorized") /\
  (forall e,
     error (insert_single supabase Remote.newNote) = Some e ->
     cell_notes (Remote.after s (Remote.Create supabase)) = cell_notes s /\
     cell_selectedNoteId (Remote.after s (Remote.Create supabase))
       = cell_selectedNoteId s).
Proof.
  unfold Remote.after. split.
  - intros row He Hd (Ht & Hc & Hg).
    rewrite (step_create_ok s _ _ He Hd). cbn. now rewrite Ht, Hc, Hg.
  - intros e He. rewrite (step_create_error s _ _ He). now split.
Qed.

Lemma C7_create_witness :
  cell_notes
    (Remote.after Sample.two_notes
       (Remote.Create (Sample.serving [] Sample.N1)))
    = [Sample.N1; Sample.N2; Sample.N1] /\
  cell_selectedNoteId
    (Remote.after Sample.two_notes
       (Remote.Create (Sample.serving [] Sample.N1)))
    = Some "n1" /\
  category Sample.N1 = "Uncategorized".
Proof.
  destruct (C7_create Sample.two_notes (Sample.serving [] Sample.N1))
    as [Hok _].
  destruct (Hok Sample.N1 eq_refl eq_refl) as (Hn & Hs & _ & _ & Hc).
  - repeat split.
  - split; [exact Hn|]. split; [exact Hs | exact Hc].
Defined.

(** The in-memory create builds the note itself, with the same defaults. *)
Lemma local_create_defaults (s : Store) (now_ms now_iso : string) :
  exists n,
    cell_notes (store_of (Local.handleNoteCreate (render s) now_ms now_iso s))
      = n :: cell_notes s /\
    cell_selectedNoteId
      (store_of (Local.handleNoteCreate (render s) now_ms now_iso s))
      = Some (id n) /\
    id n = now_ms /\ title n = "New Note" /\ content n = "" /\
    category n = "Uncategorized" /\ created_at n = now_iso.
Proof. rewrite local_create. eexists. cbn. repeat split. Qed.

(** ** Update *)

(** C8.  A confirmed update rewrites the collection position by position:
    an entry of the note's id becomes the note, any other entry stays; the
    length and the selection do not change.  With ids unique in the
    collection, the one entry of that id is replaced where it stands.  When
    no entry has the note's id the collection is the same. *)
Theorem C8_update (s : Store) (supabase : Adapter) (updatedNote : Note) :
  error (update_eq supabase updatedNote (id updatedNote)) = None ->
  (forall i : nat,
     cell_notes (Remote.after s (Remote.Update updatedNote supabase)) !! i
     = (fun note =>
          if bool_decide (id note = id updatedNote) then updatedNote
          else note) <$> (cell_notes s !! i)) /\
  (forall before old later,
     cell_notes s = before ++ old :: later ->
     id old = id updatedNote ->
     NoDup (ids (cell_notes s)) ->
     cell_notes (Remote.after s (Remote.Update updatedNote supabase))
       = before ++ updatedNote :: later) /\
  (id updatedNote ∉ ids (cell_notes s) ->
   cell_notes (Remote.after s (Remote.Update updatedNote supabase))
     = cell_notes s) /\
  cell_selectedNoteId (Remote.after s (Remote.Update updatedNote supabase))
    = cell_selectedNoteId s.
Proof.
  intros He. unfold Remote.after. rewrite (step_update_ok s _ _ He). cbn.
  repeat split.
  - intros i. apply replace_by_id_lookup.
  - intros before old later Hl Hid Hnd. rewrite Hl in *.
    now apply replace_by_id_unique.
  - apply replace_by_id_absent.
Qed.

Lemma C8_update_witness :
  cell_notes
    (Remote.after Sample.two_notes
       (Remote.Update Sample.N1_edited (Sample.serving [] Sample.N1)))
    = [Sample.N2; Sample.N1_edited] /\
  cell_selectedNoteId
    (Remote.after Sample.two_notes
       (Remote.Update Sample.N1_edited (Sample.serving [] Sample.N1)))
    = Some "n2".
Proof.
  destruct (C8_update Sample.two_notes (Sample.serving [] Sample.N1)
              Sample.N1_edited) as (_ & Hrepl & _ & Hsel).
  - reflexivity.
  - split; [|exact Hsel].
    apply (Hrepl [Sample.N2] Sample.N1 []); [reflexivity|reflexivity|].
    cbn. repeat constructor.
    + rewrite list_elem_of_singleton. discriminate.
    + apply not_elem_of_nil.
Defined.

(** ** Order of the collection *)

Section Ordering.
Import Remote Spec.

Lemma run_app (ops1 ops2 : list Intent) (s : Store) :
  run (ops1 ++ ops2) s = run ops2 (run ops1 s).
Proof. unfold run. apply fold_left_app. Qed.

Lemma created_create supabase row :
  created (Create supabase) = Some row ->
  error (insert_single supabase newNote) = None /\
  data (insert_single supabase newNote) = Some row.
Proof.
  cbn. destruct (error (insert_single supabase newNote)); [discriminate|].
  now split.
Qed.

(** Create puts the confirmed row in front. *)
Lemma create_in_front s supabase row :
  created (Create supabase) = Some row ->
  cell_notes (after s (Create supabase)) = row :: cell_notes s.
Proof.
  intros [He Hd]%created_create. unfold after.
  now rewrite (step_create_ok s _ _ He Hd).
Qed.

(** Update, confirmed or rejected, keeps every id at its position. *)
Lemma update_keeps_ids s updatedNote supabase :
  ids (cell_notes (after s (Update updatedNote supabase)))
    = ids (cell_notes s).
Proof.
  unfold after.
  destruct (error (update_eq supabase updatedNote (id updatedNote)))
    as [e|] eqn:He.
  - now rewrite (step_update_error s _ _ _ He).
  - rewrite (step_update_ok s _ _ He). cbn. apply ids_replace_by_id.
Qed.

(** One confirmed mutation: the ids afterwards are, in order, among the
    id of the row it created (if any) followed by the ids before. *)
Lemma succeeded_step_sublist s op :
  succeeded op = true ->
  ids (cell_notes (after s op))
    `sublist_of` ids (option_list (created op)) ++ ids (cell_notes s).
Proof.
  destruct op as [sb|k|sb|u sb|k sb]; cbn [succeeded]; intros Hok;
    try discriminate.
  - apply bool_decide_eq_true_1 in Hok as [row Hrow].
    rewrite (create_in_front s sb row Hrow), Hrow. reflexivity.
  - rewrite update_keeps_ids. reflexivity.
  - apply bool_decide_eq_true_1 in Hok. cbn in Hok.
    unfold after. rewrite (step_delete_ok s _ _ Hok). cbn.
    apply ids_remove_id_sublist.
Qed.

Lemma creation_log_cons op ops :
  creation_log (op :: ops) = creation_log ops ++ option_list (created op).
Proof.
  unfold creation_log. cbn. destruct (created op) as [row|]; cbn.
  - apply reverse_cons.
  - now rewrite app_nil_r.
Qed.

(** Along confirmed creates, updates and deletes the collection lists
    surviving notes in the order newest created first, then the notes
    it started from in their old order. *)
Lemma run_sublist_creation_log ops : forall s,
  forallb succeeded ops = true ->
  ids (cell_notes (run ops s))
    `sublist_of` ids (creation_log ops) ++ ids (cell_notes s).
Proof.
  induction ops as [|op ops IH]; intros s Hok.
  - reflexivity.
  - cbn in Hok. apply andb_true_iff in Hok as [Hop Hops].
    change (run (op :: ops) s) with (run ops (after s op)).
    etransitivity; [apply (IH _ Hops)|].
    rewrite creation_log_cons. unfold ids at 3.
    rewrite fmap_app, <- app_assoc.
    apply sublist_app; [reflexivity|].
    now apply succeeded_step_sublist.
Qed.

(** A note at the head stays at the head through confirmed updates and
    confirmed deletes of other notes. *)
Lemma head_kept k ops : forall s,
  id <$> head (cell_notes s) = Some k ->
  forallb (edits_around k) ops = true ->
  id <$> head (cell_notes (run ops s)) = Some k.
Proof.
  induction ops as [|op ops IH]; intros s Hk Hok; [exact Hk|].
  cbn in Hok. apply andb_true_iff in Hok as [Hop Hops].
  change (run (op :: ops) s) with (run ops (after s op)).
  apply IH; [|exact Hops].
  destruct op as [sb|j|sb|u sb|j sb]; cbn [edits_around] in Hop;
    try discriminate.
  - pose proof (update_keeps_ids s u sb) as Hids. unfold ids in Hids.
    destruct (cell_notes s) as [|n l]; [discriminate|].
    destruct (cell_notes (after s (Update u sb))) as [|n' l'];
      [discriminate|].
    cbn in *. congruence.
  - apply andb_true_iff in Hop as [Hok Hj].
    apply bool_decide_eq_true_1 in Hok, Hj. cbn in Hok.
    unfold after. rewrite (step_delete_ok s _ _ Hok). cbn.
    destruct (cell_notes s) as [|n l]; [discriminate|].
    cbn in Hk. rewrite head_remove_id_other; [exact Hk|].
    congruence.
Qed.

End Ordering.

(** C4.  Take any run of confirmed creates, updates and deletes, then a
    confirmed create of a row, then confirmed updates and confirmed
    deletes of other notes.  The create puts its row in front of the
    collection as it stood; at the end the note at the front is still the
    one created last; the ids of the collection are, in order, among
    the ids of the created rows, newest first, followed by the ids the
    collection started from; and an update keeps every id at its
    position. *)
Theorem C4_newest_note_first
    (s : Store) (before later : list Remote.Intent)
    (supabase : Adapter) (row : Note) :
  forallb Spec.succeeded before = true ->
  Spec.created (Remote.Create supabase) = Some row ->
  forallb (Spec.edits_around (id row)) later = true ->
  cell_notes (Remote.run (before ++ [Remote.Create supabase]) s)
    = row :: cell_notes (Remote.run before s) /\
  id <$> head (cell_notes
                 (Remote.run (before ++ Remote.Create supabase :: later) s))
    = Some (id row) /\
  ids (cell_notes (Remote.run (before ++ Remote.Create supabase :: later) s))
    `sublist_of`
    ids (Spec.creation_log (before ++ Remote.Create supabase :: later))
      ++ ids (cell_notes s) /\
  (forall s0 updatedNote supabase0,
     ids (cell_notes (Remote.after s0 (Remote.Update updatedNote supabase0)))
       = ids (cell_notes s0)).
Proof.
  intros Hbefore Hrow Hlater. repeat split.
  - rewrite run_app. cbn. now apply create_in_front.
  - rewrite run_app.
    change (Remote.run (Remote.Create supabase :: later) (Remote.run before s))
      with (Remote.run later
              (Remote.after (Remote.run before s) (Remote.Create supabase))).
    apply head_kept; [|exact Hlater].
    now rewrite (create_in_front _ _ _ Hrow).
  - apply run_sublist_creation_log.
    rewrite forallb_app, Hbefore. cbn [forallb andb].
    apply andb_true_iff. split.
    + cbn [Spec.succeeded]. apply bool_decide_eq_true_2. now exists row.
    + clear -Hlater. induction later as [|op later IH]; [reflexivity|].
      cbn in *. apply andb_true_iff in Hlater as [Hop Hl].
      rewrite (IH Hl), andb_true_r.
      destruct op; cbn in *; try discriminate; [exact Hop|].
      now apply andb_true_iff in Hop as [? _].
  - intros. apply update_keeps_ids.
Qed.

Lemma C4_newest_note_first_witness :
  id <$> head
    (cell_notes
       (Remote.run
          ([Remote.Create (Sample.serving [] Sample.N1)]
           ++ Remote.Create (Sample.serving [] Sample.N2)
           :: [Remote.Update Sample.N1_edited (Sample.serving [] Sample.N1);
               Remote.Delete "n1" (Sample.serving [] Sample.N1)])
          initial)) = Some "n2".
Proof.
  apply (C4_newest_note_first initial
           [Remote.Create (Sample.serving [] Sample.N1)]
           [Remote.Update Sample.N1_edited (Sample.serving [] Sample.N1);
            Remote.Delete "n1" (Sample.serving [] Sample.N1)]
           (Sample.serving [] Sample.N2) Sample.N2);
    reflexivity.
Defined.

(** ** The selection invariant *)

Section Selection.
Import Remote Spec.

(** Validity of the selection looks at the two cells only. *)
Lemma selection_valid_cells s s' :
  cell_notes s' = cell_notes s ->
  cell_selectedNoteId s' = cell_selectedNoteId s ->
  selection_valid s -> selection_valid s'.
Proof. unfold selection_valid. now intros -> ->. Qed.

Lemma admitted_step s op :
  selection_valid s -> admitted s op = true -> selection_valid (after s op).
Proof.
  intros Hv Hadm. unfold after.
  destruct op as [sb|k|sb|u sb|k sb]; cbn [admitted adapter_error] in Hadm.
  - (* load *)
    destruct (error (select_ordered sb)) as [e|] eqn:He.
    { rewrite (step_load_error s _ _ He).
      now apply (selection_valid_cells s). }
    destruct (data (select_ordered sb)) as [rows|] eqn:Hd.
    2:{ rewrite (step_load_null s _ He Hd).
        now apply (selection_valid_cells s). }
    rewrite (step_load_ok s _ _ He Hd).
    unfold selection_valid in *. cbn.
    destruct (cell_selectedNoteId s) as [sel|].
    + apply bool_decide_eq_true_1 in Hadm.
      destruct rows as [|first rows]; [exact Hadm|].
      destruct (truthy (Some sel)); [exact Hadm|]. cbn. left.
    + destruct rows as [|first rows]; [exact I|]. cbn. left.
  - (* select *)
    apply bool_decide_eq_true_1 in Hadm. exact Hadm.
  - (* create *)
    destruct (error (insert_single sb newNote)) as [e|] eqn:He.
    { rewrite (step_create_error s _ _ He).
      now apply (selection_valid_cells s). }
    destruct (data (insert_single sb newNote)) as [row|] eqn:Hd.
    + rewrite (step_create_ok s _ _ He Hd).
      unfold selection_valid. cbn. left.
    + now rewrite (step_create_null s _ He Hd).
  - (* update *)
    destruct (error (update_eq sb u (id u))) as [e|] eqn:He.
    { rewrite (step_update_error s _ _ _ He).
      now apply (selection_valid_cells s). }
    rewrite (step_update_ok s _ _ He).
    unfold selection_valid in *. cbn.
    now rewrite ids_replace_by_id.
  - (* delete *)
    destruct (error (delete_eq sb k)) as [e|] eqn:He.
    { rewrite (step_delete_error s _ _ _ He).
      now apply (selection_valid_cells s). }
    rewrite orb_false_r in Hadm.
    rewrite (step_delete_ok s _ _ He).
    unfold selection_valid in *. cbn.
    destruct (decide (cell_selectedNoteId s = Some k)) as [Hsel|Hsel].
    + (* the selected note, from below the head *)
      rewrite (bool_decide_eq_true_2 _ Hsel).
      rewrite bool_decide_eq_false_2 in Hadm by (intros H; now apply H).
      apply bool_decide_eq_true_1 in Hadm.
      destruct (cell_notes s) as [|n l]; [exact I|].
      cbn in Hadm. rewrite head_remove_id_other by congruence.
      cbn. left.
    + rewrite (bool_decide_eq_false_2 _ Hsel).
      destruct (cell_selectedNoteId s) as [sel|]; [|exact I].
      apply elem_of_ids_remove_id; [exact Hv|congruence].
Qed.

End Selection.

(** C2.  The claim: in every reachable state the selection is unset or
    names a note of the collection, also immediately after a delete.  On
    the handlers: the component mounts and loads N2 and N1, which selects
    N2, a valid selection; the user deletes N2 and the adapter confirms.
    The collection is then N1 alone while [selectedNoteId] still holds the
    id of N2, an id no note of the collection carries. *)
Theorem C2_delete_of_selected_first_note_dangles :
  selection_valid
    (Remote.run
       [Remote.Load (Sample.serving [Sample.N2; Sample.N1] Sample.N1)]
       initial) /\
  cell_notes
    (Remote.run
       [Remote.Load (Sample.serving [Sample.N2; Sample.N1] Sample.N1);
        Remote.Delete "n2" (Sample.serving [Sample.N1] Sample.N1)]
       initial) = [Sample.N1] /\
  cell_selectedNoteId
    (Remote.run
       [Remote.Load (Sample.serving [Sample.N2; Sample.N1] Sample.N1);
        Remote.Delete "n2" (Sample.serving [Sample.N1] Sample.N1)]
       initial) = Some "n2" /\
  ~ selection_valid
      (Remote.run
         [Remote.Load (Sample.serving [Sample.N2; Sample.N1] Sample.N1);
          Remote.Delete "n2" (Sample.serving [Sample.N1] Sample.N1)]
         initial).
Proof.
  split; [cbn; left|]. split; [reflexivity|]. split; [reflexivity|].
  change ("n2" ∉ ["n1"]). rewrite list_elem_of_singleton. discriminate.
Qed.

(** X22.  Start from a state whose selection is unset or names a note of
    the collection, and run any sequence of intents that holds none of
    these three: a select of an id that is not listed, a confirmed delete
    of the selected note while it is the first of the list, a successful
    load whose rows do not hold the selected id.  Then the selection is
    again unset or names a note of the collection.  In particular a
    confirmed delete of the selected note from below the head of the list
    keeps the selection valid. *)
Theorem X22_selection_valid_on_admitted_runs
    (ops : list Remote.Intent) (s : Store) :
  selection_valid s ->
  Spec.admitted_run s ops = true ->
  selection_valid (Remote.run ops s).
Proof.
  revert s. induction ops as [|op ops IH]; intros s Hv Hadm; [exact Hv|].
  cbn in Hadm. apply andb_true_iff in Hadm as [Hop Hops].
  change (Remote.run (op :: ops) s) with (Remote.run ops (Remote.after s op)).
  apply IH; [|exact Hops]. now apply admitted_step.
Qed.

Lemma X22_selection_valid_on_admitted_runs_witness :
  selection_valid
    (Remote.run
       [Remote.Load (Sample.serving [Sample.N1] Sample.N1);
        Remote.Create (Sample.serving [Sample.N1] Sample.N2);
        Remote.Select "n1";
        Remote.Update Sample.N1_edited (Sample.serving [] Sample.N1);
        Remote.Delete "n1" (Sample.serving [] Sample.N1);
        Remote.Delete "n2" (Sample.rejecting Sample.offline)]
       initial).
Proof.
  apply (X22_selection_valid_on_admitted_runs
           [Remote.Load (Sample.serving [Sample.N1] Sample.N1);
            Remote.Create (Sample.serving [Sample.N1] Sample.N2);
            Remote.Select "n1";
            Remote.Update Sample.N1_edited (Sample.serving [] Sample.N1);
            Remote.Delete "n1" (Sample.serving [] Sample.N1);
            Remote.Delete "n2" (Sample.rejecting Sample.offline)]
           initial).
  - exact I.
  - vm_compute. reflexivity.
Defined.

(** * Further properties of the handlers *)

(** ** The selected note *)

Section SelectedNote.
Implicit Types (l : list Note) (sel : option string).

Lemma find_selected_none sel l :
  find (is_selected sel) l = None <->
  sel = None \/ exists k, sel = Some k /\ k ∉ ids l.
Proof.
  unfold ids. induction l as [|n l IH]; cbn.
  - split; [|reflexivity]. intros _. destruct sel as [k|]; [right|now left].
    exists k. split; [reflexivity|apply not_elem_of_nil].
  - unfold is_selected at 1. case_bool_decide as Hn.
    + split; [discriminate|]. intros [->|(k & -> & Hk)]; [discriminate|].
      exfalso. apply Hk. injection Hn as ->. left.
    + rewrite IH. split.
      * intros [->|(k & -> & Hk)]; [now left|right]. exists k.
        split; [reflexivity|]. rewrite not_elem_of_cons. split; [|exact Hk].
        congruence.
      * intros [->|(k & -> & Hk)]; [now left|right]. exists k.
        split; [reflexivity|]. now apply not_elem_of_cons in Hk as [_ Hk].
Qed.

Lemma find_selected_some sel l note :
  find (is_selected sel) l = Some note ->
  sel = Some (id note) /\
  exists before later, l = before ++ note :: later /\ id note ∉ ids before.
Proof.
  unfold ids. induction l as [|n l IH]; cbn; [discriminate|].
  unfold is_selected at 1. case_bool_decide as Hn.
  - intros [= ->]. split; [now symmetry|]. exists [], l.
    split; [reflexivity|apply not_elem_of_nil].
  - intros Hf. destruct (IH Hf) as (Hsel & before & later & -> & Hb).
    split; [exact Hsel|]. exists (n :: before), later.
    split; [reflexivity|]. cbn. rewrite not_elem_of_cons. split; [|exact Hb].
    congruence.
Qed.

(** [find] for the selected id sees through the replacement of [map]:
    the replacement keeps every id. *)
Lemma find_selected_replace sel u l :
  find (is_selected sel) (replace_by_id u l)
  = (fun note => if bool_decide (id note = id u) then u else note)
      <$> find (is_selected sel) l.
Proof.
  unfold replace_by_id. induction l as [|n l IH]; [reflexivity|].
  cbn [fmap list_fmap find].
  assert (is_selected sel (if bool_decide (id n = id u) then u else n)
          = is_selected sel n) as ->.
  { unfold is_selected. destruct (decide (id n = id u)) as [Hn|Hn].
    - rewrite (bool_decide_eq_true_2 _ Hn). now rewrite Hn.
    - now rewrite (bool_decide_eq_false_2 _ Hn). }
  destruct (is_selected sel n); [reflexivity|exact IH].
Qed.

(** The first entry is the one found when it carries the selected id. *)
Lemma find_selected_head n l :
  find (is_selected (Some (id n))) (n :: l) = Some n.
Proof. cbn. unfold is_selected. now rewrite bool_decide_eq_true_2. Qed.

End SelectedNote.

(** X1.  The derived [selectedNote] is absent exactly when nothing is
    selected or no note of the collection carries the selected id; when it
    is present it is the first note of the collection that carries the
    selected id. *)
Theorem X1_selectedNote_characterised (r : Render) :
  (selectedNote r = None <->
   selectedNoteId r = None \/
   exists k, selectedNoteId r = Some k /\ k ∉ ids (notes r)) /\
  (forall note,
     selectedNote r = Some note ->
     selectedNoteId r = Some (id note) /\
     exists before later,
       notes r = before ++ note :: later /\ id note ∉ ids before).
Proof.
  unfold selectedNote. split.
  - apply find_selected_none.
  - intros note. apply find_selected_some.
Qed.

(** X2.  After a create the adapter confirmed with a row, the selected
    note is that row, whatever was selected before and whatever ids the
    collection already held. *)
Theorem X2_create_shows_created_row
    (s : Store) (supabase : Adapter) (row : Note) :
  Spec.created (Remote.Create supabase) = Some row ->
  selectedNote (render (Remote.after s (Remote.Create supabase))) = Some row /\
  View.pane (render (Remote.after s (Remote.Create supabase)))
    = View.EditorFor row.
Proof.
  intros [He Hd]%created_create. unfold Remote.after, View.pane.
  rewrite (step_create_ok s _ _ He Hd). unfold selectedNote. cbn -[find].
  now rewrite find_selected_head.
Qed.

Lemma X2_create_shows_created_row_witness :
  selectedNote
    (render (Remote.after Sample.two_notes
               (Remote.Create (Sample.serving [] Sample.N1))))
  = Some Sample.N1.
Proof.
  apply (X2_create_shows_created_row Sample.two_notes
           (Sample.serving [] Sample.N1) Sample.N1).
  reflexivity.
Defined.

(** X3.  After a confirmed update the selected note is the old selected
    note passed through the replacement: the updated note when the
    selected note has its id, the same note otherwise, and absent when it
    was absent. *)
Theorem X3_update_follows_selected_note
    (s : Store) (supabase : Adapter) (updatedNote : Note) :
  error (update_eq supabase updatedNote (id updatedNote)) = None ->
  selectedNote
    (render (Remote.after s (Remote.Update updatedNote supabase)))
  = (fun note =>
       if bool_decide (id note = id updatedNote) then updatedNote else note)
      <$> selectedNote (render s).
Proof.
  intros He. unfold Remote.after. rewrite (step_update_ok s _ _ He).
  unfold selectedNote. cbn -[find]. apply find_selected_replace.
Qed.

Lemma X3_update_follows_selected_note_witness :
  selectedNote
    (render
       (Remote.after
          (Remote.after Sample.two_notes (Remote.Select "n1"))
          (Remote.Update Sample.N1_edited (Sample.serving [] Sample.N1))))
  = Some Sample.N1_edited.
Proof.
  apply (X3_update_follows_selected_note
           (Remote.after Sample.two_notes (Remote.Select "n1"))
           (Sample.serving [] Sample.N1) Sample.N1_edited).
  reflexivity.
Defined.

(** ** Delete and create *)

Section Removal.
Implicit Types (l : list Note) (k : string).

Lemma remove_id_gone k l : k ∉ ids (remove_id k l).
Proof.
  unfold ids, remove_id. rewrite list_elem_of_fmap.
  intros (n & -> & Hn). apply list_elem_of_filter in Hn as [Hn _].
  now apply Hn.
Qed.

Lemma remove_id_absent k l : k ∉ ids l -> remove_id k l = l.
Proof.
  unfold ids, remove_id. induction l as [|n l IH]; [reflexivity|].
  rewrite fmap_cons, not_elem_of_cons. intros [Hn Hl].
  rewrite filter_cons, decide_True by congruence. now rewrite IH.
Qed.


End Removal.

(** A confirmed delete of the selected note while it is the first of the
    list always leaves a selection that names no note: the exception among
    the intents of the presentation layer. *)
Lemma delete_selected_head_breaks_selection
    (s : Store) (supabase : Adapter) (n : Note) (l : list Note) :
  cell_notes s = n :: l ->
  cell_selectedNoteId s = Some (id n) ->
  error (delete_eq supabase (id n)) = None ->
  ~ selection_valid (Remote.after s (Remote.Delete (id n) supabase)).
Proof.
  intros Hl Hsel He.
  destruct (delete_selected_head s supabase n l Hl Hsel He) as (Hn & Hs & _).
  unfold selection_valid. rewrite Hs, Hn. apply remove_id_gone.
Qed.



(** X5.  A confirmed create followed at once by a confirmed delete of the
    created row gives back the collection as it was, provided no listed
    note had the id of the row.  The selection does not come back: it
    stays on the id of the deleted row, and no note is shown. *)
Theorem X5_create_then_delete
    (s : Store) (supabase supabase' : Adapter) (row : Note) :
  Spec.created (Remote.Create supabase) = Some row ->
  id row ∉ ids (cell_notes s) ->
  error (delete_eq supabase' (id row)) = None ->
  cell_notes
    (Remote.run [Remote.Create supabase; Remote.Delete (id row) supabase'] s)
    = cell_notes s /\
  cell_selectedNoteId
    (Remote.run [Remote.Create supabase; Remote.Delete (id row) supabase'] s)
    = Some (id row) /\
  selectedNote
    (render
       (Remote.run
          [Remote.Create supabase; Remote.Delete (id row) supabase'] s))
    = None.
Proof.
  intros Hrow Hfresh He. cbn [Remote.run fold_left].
  destruct (created_create _ _ Hrow) as [Hce Hcd].
  destruct (delete_selected_head
              (Remote.after s (Remote.Create supabase)) supabase' row
              (cell_notes s)) as (Hn & Hs & Hshown).
  - apply create_in_front, Hrow.
  - unfold Remote.after. now rewrite (step_create_ok s _ _ Hce Hcd).
  - exact He.
  - rewrite Hn, Hs, Hshown. now rewrite remove_id_absent.
Qed.

Lemma X5_create_then_delete_witness :
  cell_notes
    (Remote.run
       [Remote.Create (Sample.serving [] Sample.N2);
        Remote.Delete "n2" (Sample.serving [] Sample.N2)]
       (Remote.run [Remote.Create (Sample.serving [] Sample.N1)] initial))
  = [Sample.N1].
Proof.
  apply (X5_create_then_delete
           (Remote.run [Remote.Create (Sample.serving [] Sample.N1)] initial)
           (Sample.serving [] Sample.N2) (Sample.serving [] Sample.N2)
           Sample.N2).
  - reflexivity.
  - change ("n2" ∉ ["n1"]). rewrite list_elem_of_singleton. discriminate.
  - reflexivity.
Defined.

(** X9.  When the selected note is deleted and it is not the first of the
    list, the first note is selected; it is also the first of what
    remains, and it is the note shown.  Both components behave so. *)
Theorem X9_delete_selected_below_head
    (s : Store) (supabase : Adapter) (n : Note) (l : list Note)
    (id' : string) :
  cell_notes s = n :: l ->
  cell_selectedNoteId s = Some id' ->
  id n ≠ id' ->
  error (delete_eq supabase id') = None ->
  head (cell_notes (Remote.after s (Remote.Delete id' supabase))) = Some n /\
  selectedNote (render (Remote.after s (Remote.Delete id' supabase)))
    = Some n /\
  head (cell_notes (store_of (Local.handleNoteDelete (render s) id' s)))
    = Some n /\
  selectedNote (render (store_of (Local.handleNoteDelete (render s) id' s)))
    = Some n.
Proof.
  intros Hl Hsel Hn He. unfold Remote.after.
  rewrite (step_delete_ok s _ _ He), local_delete. cbn [store_of].
  unfold selectedNote. cbn -[find].
  rewrite Hl, Hsel, bool_decide_eq_true_2 by reflexivity.
  rewrite head_remove_id_other by exact Hn. cbn [head fmap option_fmap option_map].
  now rewrite find_selected_head.
Qed.

Lemma X9_delete_selected_below_head_witness :
  selectedNote
    (render
       (Remote.after
          (Remote.after Sample.two_notes (Remote.Select "n1"))
          (Remote.Delete "n1" (Sample.serving [] Sample.N1))))
  = Some Sample.N2.
Proof.
  apply (X9_delete_selected_below_head
           (Remote.after Sample.two_notes (Remote.Select "n1"))
           (Sample.serving [] Sample.N1) Sample.N2 [Sample.N1] "n1").
  - reflexivity.
  - reflexivity.
  - discriminate.
  - reflexivity.
Defined.

(** ** What every intent does to the loading flag and the console *)

Section Footprint.
Import Remote Spec Trace.

(** Whatever the adapter replies, an intent lowers the loading flag only
    if it is a load, never raises it, and appends to the console the one
    entry of its rejection, if it was rejected. *)
Lemma after_footprint s op :
  cell_loading (after s op) = cell_loading s && negb (is_load op) /\
  console (after s op) = console s ++ option_list (failure_entry op).
Proof.
  unfold after, failure_entry.
  destruct op as [sb|k|sb|u sb|k sb]; cbn [is_load adapter_error label_of].
  - destruct (error (select_ordered sb)) as [e|] eqn:He.
    { rewrite (step_load_error s _ _ He). cbn. now rewrite andb_false_r. }
    destruct (data (select_ordered sb)) as [rows|] eqn:Hd.
    + rewrite (step_load_ok s _ _ He Hd). cbn.
      now rewrite app_nil_r, andb_false_r.
    + rewrite (step_load_null s _ He Hd). cbn.
      now rewrite app_nil_r, andb_false_r.
  - rewrite step_select. cbn. now rewrite app_nil_r, andb_true_r.
  - destruct (error (insert_single sb newNote)) as [e|] eqn:He.
    { rewrite (step_create_error s _ _ He). cbn. now rewrite andb_true_r. }
    destruct (data (insert_single sb newNote)) as [row|] eqn:Hd.
    + rewrite (step_create_ok s _ _ He Hd). cbn.
      now rewrite app_nil_r, andb_true_r.
    + rewrite (step_create_null s _ He Hd). cbn.
      now rewrite app_nil_r, andb_true_r.
  - destruct (error (update_eq sb u (id u))) as [e|] eqn:He.
    + rewrite (step_update_error s _ _ _ He). cbn. now rewrite andb_true_r.
    + rewrite (step_update_ok s _ _ He). cbn.
      now rewrite app_nil_r, andb_true_r.
  - destruct (error (delete_eq sb k)) as [e|] eqn:He.
    + rewrite (step_delete_error s _ _ _ He). cbn. now rewrite andb_true_r.
    + rewrite (step_delete_ok s _ _ He). cbn.
      now rewrite app_nil_r, andb_true_r.
Qed.

Lemma omap_failure_cons op ops :
  omap failure_entry (op :: ops)
  = option_list (failure_entry op) ++ omap failure_entry ops.
Proof. cbn. now destruct (failure_entry op). Qed.

(** The ids stay pairwise distinct across one intent that brings no
    second note of a listed id. *)
Lemma keeps_unique_step s op :
  NoDup (ids (cell_notes s)) ->
  keeps_unique s op = true ->
  NoDup (ids (cell_notes (after s op))).
Proof.
  intros Hnd Hk. unfold after.
  destruct op as [sb|k|sb|u sb|k sb];
    cbn [keeps_unique created adapter_error] in Hk.
  - destruct (error (select_ordered sb)) as [e|] eqn:He.
    { now rewrite (step_load_error s _ _ He). }
    destruct (data (select_ordered sb)) as [rows|] eqn:Hd.
    + rewrite (step_load_ok s _ _ He Hd). cbn.
      now apply bool_decide_eq_true_1 in Hk.
    + now rewrite (step_load_null s _ He Hd).
  - exact Hnd.
  - destruct (error (insert_single sb newNote)) as [e|] eqn:He.
    { now rewrite (step_create_error s _ _ He). }
    destruct (data (insert_single sb newNote)) as [row|] eqn:Hd.
    + rewrite (step_create_ok s _ _ He Hd). cbn.
      apply bool_decide_eq_true_1 in Hk.
      apply NoDup_cons. now split.
    + now rewrite (step_create_null s _ He Hd).
  - change (NoDup (ids (cell_notes (after s (Update u sb))))).
    now rewrite update_keeps_ids.
  - destruct (error (delete_eq sb k)) as [e|] eqn:He.
    + now rewrite (step_delete_error s _ _ _ He).
    + rewrite (step_delete_ok s _ _ He). cbn.
      exact (sublist_NoDup _ _ Hnd (ids_remove_id_sublist k (cell_notes s))).
Qed.

End Footprint.

(** X6.  Along any sequence of intents the loading flag is up at the end
    exactly when it was up at the start and no load was among them: every
    load lowers it, whether it succeeds, fails or brings no data, and
    nothing raises it. *)
Theorem X6_loading_flag (ops : list Remote.Intent) (s : Store) :
  cell_loading (Remote.run ops s)
  = cell_loading s && forallb (fun op => negb (Trace.is_load op)) ops.
Proof.
  revert s. induction ops as [|op ops IH]; intros s.
  - cbn. now rewrite andb_true_r.
  - change (Remote.run (op :: ops) s)
      with (Remote.run ops (Remote.after s op)).
    rewrite IH. destruct (after_footprint s op) as [-> _].
    cbn [forallb]. now rewrite andb_assoc.
Qed.

(** X7.  Along any sequence of intents the console grows by exactly one
    entry for every intent the adapter rejected, in the order of the
    intents, labelled by its handler and carrying the error of the reply;
    confirmed intents and selects write nothing. *)
Theorem X7_console_lists_rejections (ops : list Remote.Intent) (s : Store) :
  console (Remote.run ops s) = console s ++ omap Trace.failure_entry ops.
Proof.
  revert s. induction ops as [|op ops IH]; intros s.
  - cbn. now rewrite app_nil_r.
  - change (Remote.run (op :: ops) s)
      with (Remote.run ops (Remote.after s op)).
    rewrite IH. destruct (after_footprint s op) as [_ ->].
    now rewrite omap_failure_cons, app_assoc.
Qed.

(** X8.  Ids pairwise distinct in the collection stay so along any
    sequence of intents in which every confirmed create returns a row
    whose id is not listed at that moment and every successful load
    returns rows of distinct ids; updates, deletes, selects and rejected
    intents never break it. *)
Theorem X8_ids_stay_distinct (ops : list Remote.Intent) (s : Store) :
  NoDup (ids (cell_notes s)) ->
  Trace.unique_run s ops = true ->
  NoDup (ids (cell_notes (Remote.run ops s))).
Proof.
  revert s. induction ops as [|op ops IH]; intros s Hnd Hrun; [exact Hnd|].
  cbn in Hrun. apply andb_true_iff in Hrun as [Hop Hops].
  change (Remote.run (op :: ops) s)
    with (Remote.run ops (Remote.after s op)).
  apply IH; [|exact Hops]. now apply keeps_unique_step.
Qed.

Lemma X8_ids_stay_distinct_witness :
  NoDup
    (ids (cell_notes
            (Remote.run
               [Remote.Load (Sample.serving [Sample.N1] Sample.N1);
                Remote.Create (Sample.serving [] Sample.N2);
                Remote.Update Sample.N1_edited (Sample.serving [] Sample.N1);
                Remote.Delete "n2" (Sample.serving [] Sample.N1)]
               initial))).
Proof.
  apply (X8_ids_stay_distinct
           [Remote.Load (Sample.serving [Sample.N1] Sample.N1);
            Remote.Create (Sample.serving [] Sample.N2);
            Remote.Update Sample.N1_edited (Sample.serving [] Sample.N1);
            Remote.Delete "n2" (Sample.serving [] Sample.N1)]
           initial).
  - apply NoDup_nil_2.
  - vm_compute. reflexivity.
Defined.

(** ** The in-memory component against the remote-backed one *)

(** X10.  Each handler of the in-memory component computes what the
    handler of the remote-backed component computes when the adapter
    confirms the call; for create, when the adapter returns the note the
    in-memory handler builds from the clock. *)
Theorem X10_in_memory_is_remote_confirmed (s : Store) (supabase : Adapter) :
  (forall id', Local.handleNoteSelect id' s
               = Remote.step s (Remote.Select id')) /\
  (forall updatedNote,
     error (update_eq supabase updatedNote (id updatedNote)) = None ->
     Local.handleNoteUpdate (render s) updatedNote s
     = Remote.step s (Remote.Update updatedNote supabase)) /\
  (forall id',
     error (delete_eq supabase id') = None ->
     Local.handleNoteDelete (render s) id' s
     = Remote.step s (Remote.Delete id' supabase)) /\
  (forall now_ms now_iso,
     Spec.created (Remote.Create supabase)
       = Some (mkNote now_ms "New Note" "" "Uncategorized" now_iso) ->
     Local.handleNoteCreate (render s) now_ms now_iso s
     = Remote.step s (Remote.Create supabase)).
Proof.
  repeat split.
  - intros u He. now rewrite local_update, (step_update_ok s _ _ He).
  - intros k He. now rewrite local_delete, (step_delete_ok s _ _ He).
  - intros now_ms now_iso [He Hd]%created_create.
    now rewrite local_create, (step_create_ok s _ _ He Hd).
Qed.

Lemma X10_in_memory_is_remote_confirmed_witness :
  Local.handleNoteDelete (render Sample.two_notes) "n1" Sample.two_notes
  = Remote.step Sample.two_notes
      (Remote.Delete "n1" (Sample.serving [] Sample.N1)) /\
  Local.handleNoteCreate (render Sample.two_notes) "n9" "2024-05-02"
    Sample.two_notes
  = Remote.step Sample.two_notes
      (Remote.Create
         (Sample.serving []
            (mkNote "n9" "New Note" "" "Uncategorized" "2024-05-02"))).
Proof.
  destruct (X10_in_memory_is_remote_confirmed Sample.two_notes
              (Sample.serving [] Sample.N1)) as (_ & _ & Hdel & _).
  destruct (X10_in_memory_is_remote_confirmed Sample.two_notes
              (Sample.serving []
                 (mkNote "n9" "New Note" "" "Uncategorized" "2024-05-02")))
    as (_ & _ & _ & Hcre).
  split; [apply Hdel; reflexivity | apply Hcre; reflexivity].
Defined.

(** ** Updates in sequence *)

Section Replacement.
Implicit Types (l : list Note) (u : Note).

Lemma replace_by_id_same_id u1 u2 l :
  id u1 = id u2 ->
  replace_by_id u2 (replace_by_id u1 l) = replace_by_id u2 l.
Proof.
  intros Hid. unfold replace_by_id. rewrite <- list_fmap_compose.
  apply list_fmap_ext. intros _ n _. cbn.
  destruct (decide (id n = id u1)) as [Hn|Hn].
  - rewrite (bool_decide_eq_true_2 _ Hn).
    rewrite !bool_decide_eq_true_2; congruence.
  - now rewrite (bool_decide_eq_false_2 _ Hn).
Qed.

Lemma replace_by_id_other_id u1 u2 l :
  id u1 ≠ id u2 ->
  replace_by_id u2 (replace_by_id u1 l)
  = replace_by_id u1 (replace_by_id u2 l).
Proof.
  intros Hid. unfold replace_by_id. rewrite <- !list_fmap_compose.
  apply list_fmap_ext. intros _ n _. cbn.
  destruct (decide (id n = id u1)) as [H1|H1],
           (decide (id n = id u2)) as [H2|H2].
  - congruence.
  - rewrite (bool_decide_eq_true_2 _ H1), (bool_decide_eq_false_2 _ H2).
    rewrite bool_decide_eq_false_2 by congruence.
    now rewrite bool_decide_eq_true_2.
  - rewrite (bool_decide_eq_false_2 _ H1), (bool_decide_eq_true_2 _ H2).
    now rewrite bool_decide_eq_false_2 by congruence.
  - rewrite (bool_decide_eq_false_2 _ H1), (bool_decide_eq_false_2 _ H2).
    now rewrite (bool_decide_eq_false_2 _ H1).
Qed.

Lemma replace_by_id_length u l : length (replace_by_id u l) = length l.
Proof. unfold replace_by_id. apply length_fmap. Qed.

End Replacement.

(** X18.  Two confirmed updates in a row: when the two notes have the
    same id the collection ends as after the second update alone (the
    later edit wins, and repeating an update changes nothing); when they
    have different ids the order of the two updates does not matter. *)
Theorem X18_updates_in_sequence
    (s : Store) (supabase1 supabase2 : Adapter) (u1 u2 : Note) :
  error (update_eq supabase1 u1 (id u1)) = None ->
  error (update_eq supabase2 u2 (id u2)) = None ->
  (id u1 = id u2 ->
   cell_notes
     (Remote.run [Remote.Update u1 supabase1; Remote.Update u2 supabase2] s)
   = cell_notes (Remote.run [Remote.Update u2 supabase2] s)) /\
  (id u1 ≠ id u2 ->
   cell_notes
     (Remote.run [Remote.Update u1 supabase1; Remote.Update u2 supabase2] s)
   = cell_notes
       (Remote.run [Remote.Update u2 supabase2; Remote.Update u1 supabase1]
          s)).
Proof.
  intros H1 H2. cbn [Remote.run fold_left]. unfold Remote.after.
  rewrite (step_update_ok s _ _ H1), (step_update_ok s _ _ H2).
  cbn [store_of].
  rewrite (step_update_ok _ _ _ H1), (step_update_ok _ _ _ H2). cbn.
  split; intros Hid.
  - now apply replace_by_id_same_id.
  - now apply replace_by_id_other_id.
Qed.

Lemma X18_updates_in_sequence_witness :
  cell_notes
    (Remote.run
       [Remote.Update Sample.N1 (Sample.serving [] Sample.N1);
        Remote.Update Sample.N1_edited (Sample.serving [] Sample.N1)]
       Sample.two_notes)
  = [Sample.N2; Sample.N1_edited].
Proof.
  destruct (X18_updates_in_sequence Sample.two_notes
              (Sample.serving [] Sample.N1) (Sample.serving [] Sample.N1)
              Sample.N1 Sample.N1_edited) as [Hsame _].
  - reflexivity.
  - reflexivity.
  - etransitivity; [exact (Hsame eq_refl) | reflexivity].
Defined.

(** A confirmed update writes the replacement of the list its handler was
    created with, whatever the collection holds when the reply arrives. *)
Lemma update_writes_closure
    (r : Render) (s : Store) (supabase : Adapter) (updatedNote : Note) :
  error (update_eq supabase updatedNote (id updatedNote)) = None ->
  Remote.handleNoteUpdate r supabase updatedNote s =
  Normal tt {| cell_notes := replace_by_id updatedNote (notes r);
               cell_selectedNoteId := cell_selectedNoteId s;
               cell_loading := cell_loading s;
               console := console s |}.
Proof. intros He. handler. rewrite He. reflexivity. Qed.

Lemma replace_by_id_present (u : Note) (l : list Note) :
  id u ∈ ids l -> u ∈ replace_by_id u l.
Proof.
  unfold ids, replace_by_id. rewrite !list_elem_of_fmap.
  intros (n & Hid & Hn). exists n. split; [|exact Hn].
  now rewrite bool_decide_eq_true_2.
Qed.

(** X19.  An update issued for a listed note by a handler created before
    a delete of that note, whose reply arrives after the delete has been
    confirmed: the delete has removed the note, and the update then writes
    the replacement of the list as it was before the delete, so the
    deleted note is back in its edited form and the collection has its
    length of before the delete.  The selection is what the delete left. *)
Theorem X19_stale_update_restores_deleted_note
    (s : Store) (supabase supabase' : Adapter) (updatedNote : Note) :
  id updatedNote ∈ ids (cell_notes s) ->
  error (delete_eq supabase' (id updatedNote)) = None ->
  error (update_eq supabase updatedNote (id updatedNote)) = None ->
  (id updatedNote
     ∉ ids (cell_notes
              (Remote.after s (Remote.Delete (id updatedNote) supabase')))) /\
  cell_notes
    (store_of
       (Remote.handleNoteUpdate (render s) supabase updatedNote
          (Remote.after s (Remote.Delete (id updatedNote) supabase'))))
    = replace_by_id updatedNote (cell_notes s) /\
  updatedNote
    ∈ cell_notes
        (store_of
           (Remote.handleNoteUpdate (render s) supabase updatedNote
              (Remote.after s (Remote.Delete (id updatedNote) supabase')))) /\
  length
    (cell_notes
       (store_of
          (Remote.handleNoteUpdate (render s) supabase updatedNote
             (Remote.after s (Remote.Delete (id updatedNote) supabase')))))
    = length (cell_notes s) /\
  cell_selectedNoteId
    (store_of
       (Remote.handleNoteUpdate (render s) supabase updatedNote
          (Remote.after s (Remote.Delete (id updatedNote) supabase'))))
    = cell_selectedNoteId
        (Remote.after s (Remote.Delete (id updatedNote) supabase')).
Proof.
  intros Hin Hd Hu. rewrite (update_writes_closure _ _ _ _ Hu).
  unfold Remote.after. rewrite (step_delete_ok s _ _ Hd).
  cbn [store_of cell_notes cell_selectedNoteId render notes].
  split; [apply remove_id_gone|]. split; [reflexivity|].
  split; [now apply replace_by_id_present|].
  split; [apply replace_by_id_length|reflexivity].
Qed.

Lemma X19_stale_update_restores_deleted_note_witness :
  cell_notes
    (Remote.after Sample.two_notes
       (Remote.Delete "n1" (Sample.serving [] Sample.N1)))
    = [Sample.N2] /\
  cell_notes
    (store_of
       (Remote.handleNoteUpdate (render Sample.two_notes)
          (Sample.serving [] Sample.N1) Sample.N1_edited
          (Remote.after Sample.two_notes
             (Remote.Delete "n1" (Sample.serving [] Sample.N1)))))
    = [Sample.N2; Sample.N1_edited].
Proof.
  destruct (X19_stale_update_restores_deleted_note Sample.two_notes
              (Sample.serving [] Sample.N1) (Sample.serving [] Sample.N1)
              Sample.N1_edited) as (_ & Hback & _).
  - change ("n1" ∈ ["n2"; "n1"]). right. left.
  - reflexivity.
  - reflexivity.
  - split; [reflexivity|]. etransitivity; [exact Hback | reflexivity].
Defined.

(** ** Handlers return *)

(** X20.  No handler throws to its caller: whatever the adapter replies
    and whatever the state, every intent of the remote-backed component
    returns normally (the read of [notes[0].id] is only reached on a
    non-empty list, and every error of a reply is caught), and so do the
    handlers of the in-memory component. *)
Theorem X20_handlers_return
    (s : Store) (op : Remote.Intent) (id' now_ms now_iso : string)
    (updatedNote : Note) :
  returns (Remote.step s op) = true /\
  returns (Local.handleNoteSelect id' s) = true /\
  returns (Local.handleNoteCreate (render s) now_ms now_iso s) = true /\
  returns (Local.handleNoteUpdate (render s) updatedNote s) = true /\
  returns (Local.handleNoteDelete (render s) id' s) = true.
Proof.
  split; [apply step_returns|].
  rewrite local_delete. repeat split.
Qed.

(** ** The editor *)

Section EditorFacts.
Import Editor.

(** An edit through one of the three inputs keeps the id and the
    timestamp. *)
Lemma assign_wired_keeps_identity (n : Note) (field : Field) (value : string) :
  wired field = true ->
  id (assign n field value) = id n /\
  created_at (assign n field value) = created_at n.
Proof. destruct field; cbn; intros; try discriminate; now split. Qed.

End EditorFacts.

(** X12.  An edit of the shown note through one of the three inputs of
    the editor (title, content, category): the editor holds the edited
    note at once; the id and the timestamp are those of the shown note;
    if the adapter confirms, the ids of the collection and the selection
    are unchanged and the selected note is the edited note; if the adapter
    rejects, the selected note is still the old one, so at that moment
    the editor holds a note that the collection does not. *)
Theorem X12_editor_edit
    (s : Store) (supabase : Adapter) (editedNote : Note)
    (field : Editor.Field) (value : string) :
  selectedNote (render s) = Some editedNote ->
  Editor.wired field = true ->
  id (fst (Editor.handleChange editedNote
             (Remote.handleNoteUpdate (render s) supabase) field value))
    = id editedNote /\
  created_at
    (fst (Editor.handleChange editedNote
            (Remote.handleNoteUpdate (render s) supabase) field value))
    = created_at editedNote /\
  (error (update_eq supabase (Editor.assign editedNote field value)
            (id editedNote)) = None ->
   selectedNote
     (render
        (store_of
           (snd (Editor.handleChange editedNote
                   (Remote.handleNoteUpdate (render s) supabase) field value)
              s)))
   = Some (fst (Editor.handleChange editedNote
                  (Remote.handleNoteUpdate (render s) supabase) field value))
   /\
   ids (cell_notes
          (store_of
             (snd (Editor.handleChange editedNote
                     (Remote.handleNoteUpdate (render s) supabase) field
                     value) s)))
   = ids (cell_notes s) /\
   cell_selectedNoteId
     (store_of
        (snd (Editor.handleChange editedNote
                (Remote.handleNoteUpdate (render s) supabase) field value)
           s))
   = cell_selectedNoteId s) /\
  (forall e,
     error (update_eq supabase (Editor.assign editedNote field value)
              (id editedNote)) = Some e ->
     selectedNote
       (render
          (store_of
             (snd (Editor.handleChange editedNote
                     (Remote.handleNoteUpdate (render s) supabase) field
                     value) s)))
     = Some editedNote).
Proof.
  intros Hshown Hwired. unfold Editor.handleChange. cbn [fst snd].
  destruct (assign_wired_keeps_identity editedNote field value Hwired)
    as [Hid Hts].
  split; [exact Hid|]. split; [exact Hts|].
  change (Remote.handleNoteUpdate (render s) supabase
            (Editor.assign editedNote field value) s)
    with (Remote.step s
            (Remote.Update (Editor.assign editedNote field value) supabase)).
  rewrite <- Hid. split.
  - intros He. rewrite (step_update_ok s _ _ He). cbn [store_of].
    unfold selectedNote in *. cbn -[find] in *.
    rewrite find_selected_replace, Hshown. cbn.
    rewrite bool_decide_eq_true_2 by (now symmetry).
    split; [reflexivity|]. split; [apply ids_replace_by_id|reflexivity].
  - intros e He. rewrite (step_update_error s _ _ _ He). exact Hshown.
Qed.

Lemma X12_editor_edit_witness :
  selectedNote
    (render
       (store_of
          (snd (Editor.handleChange Sample.N2
                  (Remote.handleNoteUpdate (render Sample.two_notes)
                     (Sample.serving [] Sample.N1))
                  Editor.f_title "Plan")
             Sample.two_notes)))
  = Some (mkNote "n2" "Plan" "" "Uncategorized" "2024-05-01T10:05:00Z") /\
  selectedNote
    (render
       (store_of
          (snd (Editor.handleChange Sample.N2
                  (Remote.handleNoteUpdate (render Sample.two_notes)
                     (Sample.rejecting Sample.offline))
                  Editor.f_title "Plan")
             Sample.two_notes)))
  = Some Sample.N2.
Proof.
  destruct (X12_editor_edit Sample.two_notes (Sample.serving [] Sample.N1)
              Sample.N2 Editor.f_title "Plan" eq_refl eq_refl)
    as (_ & _ & Hok & _).
  destruct (X12_editor_edit Sample.two_notes
              (Sample.rejecting Sample.offline)
              Sample.N2 Editor.f_title "Plan" eq_refl eq_refl)
    as (_ & _ & _ & Hfail).
  destruct (Hok eq_refl) as (Hshown & _).
  split; [exact Hshown | exact (Hfail Sample.offline eq_refl)].
Defined.

(** ** The list entries *)

(** X13.  The excerpt of a list entry is the content itself when the
    content has at most 50 code units; otherwise it is the first 50 code
    units followed by three dots, 53 code units in all.  It is never
    longer than 53. *)
Theorem X13_excerpt (content : list View.code_unit) :
  (length content <= 50 -> View.excerpt content = content) /\
  (50 < length content ->
   View.excerpt content = take 50 content ++ View.dots /\
   length (View.excerpt content) = 53) /\
  length (View.excerpt content) <= 53.
Proof.
  unfold View.excerpt.
  destruct (decide (50 < length content)) as [Hlong|Hshort].
  - rewrite (bool_decide_eq_true_2 _ Hlong).
    assert (length (take 50 content ++ View.dots) = 53) as Hlen.
    { rewrite length_app, length_take.
      change (length View.dots) with 3. lia. }
    split; [lia|]. split; [now split|]. now rewrite Hlen.
  - rewrite (bool_decide_eq_false_2 _ Hshort).
    rewrite app_nil_r, take_ge by lia.
    split; [reflexivity|]. split; [lia|]. lia.
Qed.

Lemma X13_excerpt_witness :
  View.excerpt (replicate 30 8364%N) = replicate 30 8364%N /\
  View.excerpt (replicate 55 97%N) = replicate 50 97%N ++ View.dots.
Proof.
  destruct (X13_excerpt (replicate 30 8364%N)) as [Hshort _].
  destruct (X13_excerpt (replicate 55 97%N)) as (_ & Hlong & _).
  split.
  - apply Hshort. rewrite length_replicate. lia.
  - etransitivity; [apply Hlong; rewrite length_replicate; lia|].
    reflexivity.
Defined.

Section Highlight.
Implicit Types (l : list Note) (k : string).

Lemma highlighted_none_found k l :
  k ∉ ids l ->
  filter (fun note => bool_decide (Some k = Some (id note)) = true) l = [].
Proof.
  induction l as [|n l IH]; [reflexivity|].
  unfold ids. rewrite fmap_cons, not_elem_of_cons. intros [Hn Hl].
  rewrite filter_cons, decide_False; [now apply IH|].
  rewrite bool_decide_eq_false_2; [discriminate|congruence].
Qed.

End Highlight.

(** X15.  With ids pairwise distinct, the highlighted entries of the list
    are exactly the selected note: one entry when a listed note is
    selected, none when nothing is selected or the selected id is not
    listed; and the editor pane shows that note, or the placeholder when
    there is none. *)
Theorem X15_highlight_matches_editor (r : Render) :
  NoDup (ids (notes r)) ->
  filter (fun note => View.highlighted r note = true) (notes r)
  = option_list (selectedNote r) /\
  View.pane r
  = match filter (fun note => View.highlighted r note = true) (notes r) with
    | note :: _ => View.EditorFor note
    | [] => View.NoNoteSelected
    end.
Proof.
  intros Hnd.
  assert (filter (fun note => View.highlighted r note = true) (notes r)
          = option_list (selectedNote r)) as Hrows.
  { destruct r as [l sel]. unfold selectedNote, View.highlighted.
    cbn [notes selectedNoteId] in *.
    induction l as [|n l IH]; [reflexivity|].
    unfold ids in Hnd. rewrite fmap_cons in Hnd.
    apply NoDup_cons in Hnd as [Hn Hl].
    rewrite filter_cons. cbn [find]. unfold is_selected at 1.
    destruct (decide (sel = Some (id n))) as [Hs|Hs].
    - rewrite decide_True by (now apply bool_decide_eq_true_2).
      rewrite bool_decide_eq_true_2 by (now symmetry).
      subst sel. cbn. f_equal.
      now rewrite (highlighted_none_found (id n) l Hn).
    - rewrite decide_False.
      2:{ rewrite bool_decide_eq_false_2 by exact Hs. discriminate. }
      rewrite bool_decide_eq_false_2 by congruence.
      now apply IH. }
  split; [exact Hrows|].
  rewrite Hrows. unfold View.pane. now destruct (selectedNote r).
Qed.

Lemma X15_highlight_matches_editor_witness :
  filter (fun note => View.highlighted (render Sample.two_notes) note = true)
    (notes (render Sample.two_notes))
  = [Sample.N2].
Proof.
  destruct (X15_highlight_matches_editor (render Sample.two_notes))
    as [Hrows _].
  - cbn. repeat constructor.
    + rewrite list_elem_of_singleton. discriminate.
    + apply not_elem_of_nil.
  - etransitivity; [exact Hrows | reflexivity].
Defined.

(** ** Mounting and reloading *)

(** X16.  The load of the mount effect, run from the initial state: whatever
    the adapter replies the loading flag is down afterwards, the selection
    is the id of the first note of the collection (unset when the
    collection is empty, as it is after an error), and the note shown is
    that first note. *)
Theorem X16_first_load (supabase : Adapter) :
  cell_loading (Remote.run [Remote.Load supabase] initial) = false /\
  cell_selectedNoteId (Remote.run [Remote.Load supabase] initial)
    = id <$> head (cell_notes (Remote.run [Remote.Load supabase] initial)) /\
  selectedNote (render (Remote.run [Remote.Load supabase] initial))
    = head (cell_notes (Remote.run [Remote.Load supabase] initial)) /\
  selection_valid (Remote.run [Remote.Load supabase] initial).
Proof.
  cbn [Remote.run fold_left]. unfold Remote.after, selection_valid.
  destruct (error (select_ordered supabase)) as [e|] eqn:He.
  { rewrite (step_load_error initial _ _ He). now cbn. }
  destruct (data (select_ordered supabase)) as [rows|] eqn:Hd.
  - rewrite (step_load_ok initial _ _ He Hd). unfold selectedNote.
    cbn -[find]. destruct rows as [|first rows]; [now cbn|].
    cbn -[find]. rewrite find_selected_head.
    repeat split. left.
  - rewrite (step_load_null initial _ He Hd). now cbn.
Qed.

(** X17.  A successful load leaves a selection that is a non-empty string
    where it is, whatever rows it brings: when the rows do not hold a note
    of that id the selection no longer names a listed note and no note is
    shown, even though the collection may be non-empty. *)
Theorem X17_load_keeps_stale_selection
    (s : Store) (supabase : Adapter) (rows : list Note) (k : string) :
  cell_selectedNoteId s = Some k ->
  k ≠ "" ->
  error (select_ordered supabase) = None ->
  data (select_ordered supabase) = Some rows ->
  cell_notes (Remote.after s (Remote.Load supabase)) = rows /\
  cell_selectedNoteId (Remote.after s (Remote.Load supabase)) = Some k /\
  (k ∉ ids rows ->
   selectedNote (render (Remote.after s (Remote.Load supabase))) = None /\
   ~ selection_valid (Remote.after s (Remote.Load supabase))).
Proof.
  intros Hsel Hk He Hd. unfold Remote.after, selection_valid.
  rewrite (step_load_ok s _ _ He Hd). unfold selectedNote. cbn -[find].
  rewrite Hsel. cbn [truthy]. rewrite (bool_decide_eq_false_2 _ Hk).
  cbn [negb].
  assert (match rows with
          | [] => Some k
          | _ :: _ => Some k
          end = Some k) as -> by now destruct rows.
  split; [reflexivity|]. split; [reflexivity|].
  intros Hout. split; [|exact Hout].
  apply find_selected_none. right. now exists k.
Qed.

Lemma X17_load_keeps_stale_selection_witness :
  cell_notes
    (Remote.after Sample.two_notes
       (Remote.Load (Sample.serving [Sample.N1] Sample.N1)))
  = [Sample.N1] /\
  cell_selectedNoteId
    (Remote.after Sample.two_notes
       (Remote.Load (Sample.serving [Sample.N1] Sample.N1)))
  = Some "n2" /\
  selectedNote
    (render
       (Remote.after Sample.two_notes
          (Remote.Load (Sample.serving [Sample.N1] Sample.N1))))
  = None.
Proof.
  destruct (X17_load_keeps_stale_selection Sample.two_notes
              (Sample.serving [Sample.N1] Sample.N1) [Sample.N1] "n2")
    as (Hrows & Hsel & Hstale).
  - reflexivity.
  - discriminate.
  - reflexivity.
  - reflexivity.
  - split; [exact Hrows|]. split; [exact Hsel|].
    apply Hstale. change ("n2" ∉ ["n1"]).
    rewrite list_elem_of_singleton. discriminate.
Defined.

(** ** The connection banner *)

(** X14.  When the connection test has run, the banner no longer reads
    as testing: it reads as connected exactly when the reply carries no
    error, also when it carries no data, and as failed exactly when the
    reply carries an error; the test writes one line to the console
    either way. *)
Theorem X14_connection_banner
    (resp : Response (list nat)) (c : Connection.Cell) :
  (Connection.connectionStatus (Connection.testConnection resp c)
     ≠ Connection.testing) /\
  (Connection.connectionStatusDisplay (Connection.testConnection resp c)
     = ("text-green-500", "Connected to database")
   <-> error resp = None) /\
  (Connection.connectionStatusDisplay (Connection.testConnection resp c)
     = ("text-red-500", "Database connection error")
   <-> is_Some (error resp)) /\
  length (Connection.lines (Connection.testConnection resp c))
    = S (length (Connection.lines c)).
Proof.
  destruct resp as [payload [e|]]; cbn.
  - repeat split; try discriminate.
    + now exists e.
    + rewrite length_app. cbn. lia.
  - repeat split; try discriminate.
    + intros [e He]. discriminate.
    + rewrite length_app. cbn. lia.
Qed.

(** ** Runs of the in-memory component *)

Section LocalRuns.
Import LocalRun.

Lemma ordinary_step s op :
  settled s -> ordinary s op = true -> settled (after s op).
Proof.
  intros (Hnd & k & Hsel & Hk) Hop. unfold after, settled.
  destruct op as [j|now_ms now_iso|u|j]; cbn [dispatch ordinary] in *.
  - apply bool_decide_eq_true_1 in Hop. cbn.
    split; [exact Hnd|]. now exists j.
  - apply bool_decide_eq_true_1 in Hop. rewrite local_create. cbn.
    split; [apply NoDup_cons; now split|].
    exists now_ms. split; [reflexivity|left].
  - rewrite local_update. cbn. rewrite ids_replace_by_id.
    split; [exact Hnd|]. now exists k.
  - apply bool_decide_eq_true_1 in Hop. rewrite local_delete. cbn.
    rewrite bool_decide_eq_false_2 by exact Hop.
    split.
    + exact (sublist_NoDup _ _ Hnd (ids_remove_id_sublist j (cell_notes s))).
    + exists k. split; [exact Hsel|].
      apply elem_of_ids_remove_id; [exact Hk|congruence].
Qed.

Lemma settled_shows_note s :
  settled s -> is_Some (selectedNote (render s)).
Proof.
  intros (_ & k & Hsel & Hk).
  destruct (selectedNote (render s)) as [note|] eqn:Hnone; [now exists note|].
  apply find_selected_none in Hnone. cbn in Hnone.
  destruct Hnone as [Hn|(k' & Hk' & Hout)]; [congruence|].
  exfalso. apply Hout. assert (k' = k) as -> by congruence. exact Hk.
Qed.

Lemma initial_settled today yesterday two_days_ago :
  settled (initial today yesterday two_days_ago).
Proof.
  split.
  - cbn. repeat constructor; rewrite ?not_elem_of_cons;
      repeat split; try discriminate; apply not_elem_of_nil.
  - exists "1". split; [reflexivity|]. cbn. left.
Qed.

End LocalRuns.

(** X21.  The in-memory component, from its initial three notes: along
    any sequence of selects of listed notes, creates at clock readings
    that are not the id of a listed note, updates, and deletes of notes
    other than the selected one, the ids stay pairwise distinct, a listed
    note stays selected, and the editor always has a note to show. *)
Theorem X21_in_memory_ordinary_use
    (ops : list LocalRun.Intent) (today yesterday two_days_ago : string) :
  LocalRun.ordinary_run
    (LocalRun.initial today yesterday two_days_ago) ops = true ->
  LocalRun.settled
    (LocalRun.run ops (LocalRun.initial today yesterday two_days_ago)) /\
  is_Some
    (selectedNote
       (render
          (LocalRun.run ops
             (LocalRun.initial today yesterday two_days_ago)))).
Proof.
  intros Hrun.
  assert (LocalRun.settled
            (LocalRun.run ops
               (LocalRun.initial today yesterday two_days_ago))) as Hs.
  { generalize (initial_settled today yesterday two_days_ago).
    revert Hrun.
    generalize (LocalRun.initial today yesterday two_days_ago) as s.
    induction ops as [|op ops IH]; intros s Hrun Hs; [exact Hs|].
    cbn in Hrun. apply andb_true_iff in Hrun as [Hop Hops].
    change (LocalRun.run (op :: ops) s)
      with (LocalRun.run ops (LocalRun.after s op)).
    apply IH; [exact Hops|]. now apply ordinary_step. }
  split; [exact Hs|]. now apply settled_shows_note.
Qed.

Lemma X21_in_memory_ordinary_use_witness :
  is_Some
    (selectedNote
       (render
          (LocalRun.run
             [LocalRun.Create "1714557600000" "2024-05-01T10:00:00.000Z";
              LocalRun.Select "2";
              LocalRun.Delete "1";
              LocalRun.Update
                (mkNote "2" "Project Nebula" "Done." "Work" "d1")]
             (LocalRun.initial "d0" "d1" "d2")))).
Proof.
  apply (X21_in_memory_ordinary_use
           [LocalRun.Create "1714557600000" "2024-05-01T10:00:00.000Z";
            LocalRun.Select "2";
            LocalRun.Delete "1";
            LocalRun.Update
              (mkNote "2" "Project Nebula" "Done." "Work" "d1")]
           "d0" "d1" "d2").
  vm_compute. reflexivity.
Defined.

(** X11.  The in-memory create takes the id from the clock: two creates at
    the same reading leave two entries with one id at the front of the
    list.  A delete of that id then removes both, giving back the
    collection as it was before the two creates when none of its notes had
    that id, and an update of that id rewrites both entries. *)
Theorem X11_in_memory_same_clock_reading
    (s : Store) (now_ms iso1 iso2 : string) (updatedNote : Note) :
  now_ms ∉ ids (cell_notes s) ->
  id updatedNote = now_ms ->
  ids (cell_notes
         (LocalRun.run
            [LocalRun.Create now_ms iso1; LocalRun.Create now_ms iso2] s))
    = now_ms :: now_ms :: ids (cell_notes s) /\
  cell_notes
    (LocalRun.run
       [LocalRun.Create now_ms iso1; LocalRun.Create now_ms iso2;
        LocalRun.Delete now_ms] s)
    = cell_notes s /\
  cell_notes
    (LocalRun.run
       [LocalRun.Create now_ms iso1; LocalRun.Create now_ms iso2;
        LocalRun.Update updatedNote] s)
    = updatedNote :: updatedNote :: cell_notes s.
Proof.
  intros Hfresh Hid. cbn [LocalRun.run fold_left].
  unfold LocalRun.after. cbn [LocalRun.dispatch].
  rewrite local_create. cbn [store_of].
  rewrite local_create. cbn [store_of].
  rewrite local_delete, local_update. cbn [store_of cell_notes].
  split; [reflexivity|]. split.
  - unfold remove_id. rewrite !filter_cons. cbn [id].
    rewrite !decide_False by (intros H; now apply H).
    now apply remove_id_absent.
  - unfold replace_by_id. rewrite !fmap_cons. cbn [id].
    rewrite bool_decide_eq_true_2 by (now symmetry).
    f_equal. f_equal. apply replace_by_id_absent. now rewrite Hid.
Qed.

Lemma X11_in_memory_same_clock_reading_witness :
  cell_notes
    (LocalRun.run
       [LocalRun.Create "1714557600000" "a";
        LocalRun.Create "1714557600000" "b";
        LocalRun.Delete "1714557600000"] Sample.two_notes)
  = [Sample.N2; Sample.N1].
Proof.
  destruct (X11_in_memory_same_clock_reading Sample.two_notes
              "1714557600000" "a" "b"
              (mkNote "1714557600000" "T" "" "Work" "a"))
    as (_ & Hdel & _).
  - change ("1714557600000" ∉ ["n2"; "n1"]).
    rewrite !not_elem_of_cons. repeat split; try discriminate.
    apply not_elem_of_nil.
  - reflexivity.
  - exact Hdel.
Defined.
